(** * RayTracingAccelerationStructurePass

    A shallow embedding of
    [Gems/Atom/Feature/Common/Code/Source/RayTracing/RayTracingAccelerationStructurePass.cpp]:
    the two frame-graph callbacks of the pass,
    [SetupFrameGraphDependencies] (dependency declaration) and
    [BuildCommandList] (command emission), and the properties of the
    acceleration-structure scheduling they implement.

    Conventions.
    - Unsigned machine integers are [Z] with the wrap-around written out
      ([wrap32], [wrap64]).
    - [float] values ([m_irradianceColor.GetA()], transforms) are Rocq's
      primitive binary64 floats; every binary32 value is one of them and the
      comparison [<] agrees on them, NaN included.
    - Smart pointers that the code tests against null are [option]s.
    - [BuildCommandList] is written in state-passing style: it takes the pass
      members and the feature processor and returns both together with the
      commands recorded on the command list.
    - [SetupFrameGraphDependencies] talks to collaborators (frame graph,
      adjacent passes, the TLAS); their answers come from records of
      functions and every call is written to an event trace. *)

From Stdlib Require Import String ZArith List Bool Lia.
From Stdlib Require Import Floats.PrimFloat.
Import ListNotations.

Local Open Scope Z_scope.

(** ** Machine integers *)

Definition wrap32 (z : Z) : Z := z mod 2 ^ 32.
Definition wrap64 (z : Z) : Z := z mod 2 ^ 64.

(** ** Data model *)

Module RHI.

(** [RHI::ResultCode]; only [Success] is tested by the pass. *)
Inductive ResultCode := Success | Fail | InvalidOperation | InvalidArgument | OutOfMemory.

Definition ResultCode_eqb (a b : ResultCode) : bool :=
  match a, b with
  | Success, Success | Fail, Fail | InvalidOperation, InvalidOperation
  | InvalidArgument, InvalidArgument | OutOfMemory, OutOfMemory => true
  | _, _ => false
  end.

Inductive ScopeAttachmentAccess := Read | Write | ReadWrite.
Inductive AttachmentLoadAction := Load | Clear | DontCare.

(** [AZ::RHI::AttachmentId] is a name. *)
Definition AttachmentId := string.

(** A BLAS object, referred to through [RHI::Ptr<RHI::RayTracingBlas>]. *)
Definition RayTracingBlas := Z.

Record Buffer := { buffer_id : Z; m_byteCount : Z }.

(** The view descriptors the pass handles: the one made by
    [BufferViewDescriptor::CreateRayTracingTLAS(byteCount)] and any other. *)
Inductive BufferViewDescriptor :=
| CreateRayTracingTLAS (tlasBufferByteCount : Z)
| OtherBufferView (elementOffset elementCount elementSize : Z).

Record BufferScopeAttachmentDescriptor := {
  m_attachmentId : AttachmentId;
  m_bufferViewDescriptor : BufferViewDescriptor;
  m_loadAction : AttachmentLoadAction
}.

End RHI.

Record Vector3 := { v_x : float; v_y : float; v_z : float }.
Record Quaternion := { q_x : float; q_y : float; q_z : float; q_w : float }.
Record Transform := {
  m_rotation : Quaternion;
  m_uniformScale : float;
  m_translation : Vector3
}.

Definition Vector3_One : Vector3 := {| v_x := 1; v_y := 1; v_z := 1 |}.
Definition Transform_Identity : Transform :=
  {| m_rotation := {| q_x := 0; q_y := 0; q_z := 0; q_w := 1 |};
     m_uniformScale := 1;
     m_translation := {| v_x := 0; v_y := 0; v_z := 0 |} |}.

(** [RayTracingFeatureProcessor::Mesh], the fields the pass reads. *)
Record Mesh := {
  m_instanceMask : Z;
  m_transform : Transform;
  m_nonUniformScale : Vector3
}.

(** [RayTracingFeatureProcessor::SubMesh]: [m_mesh] points to the parent mesh,
    [m_irradianceColor.GetA()] is the opacity. *)
Record SubMesh := {
  m_mesh : Mesh;
  m_blas : RHI.RayTracingBlas;
  m_irradianceColor_A : float
}.

(** ** The TLAS descriptor and its builder *)

Record RayTracingTlasInstance := {
  i_instanceID : Z;
  i_instanceMask : Z;
  i_hitGroupIndex : Z;
  i_transform : Transform;
  i_nonUniformScale : Vector3;
  i_transparent : bool;
  i_blas : RHI.RayTracingBlas
}.

Record RayTracingTlasDescriptor := { m_instances : list RayTracingTlasInstance }.

(** Modelled from the spec: the fluent builder of [RHI::RayTracingTlasDescriptor]
    lives in the RHI gem and is not among the sources. Following the spec's
    data model (an ordered sequence of instance descriptors, one appended per
    sub-mesh), [Instance] appends a fresh instance at the end of the sequence
    and every setter writes one field of the instance appended last. *)
Module TlasBuilder.

Definition newInstance : RayTracingTlasInstance :=
  {| i_instanceID := 0; i_instanceMask := 1; i_hitGroupIndex := 0;
     i_transform := Transform_Identity; i_nonUniformScale := Vector3_One;
     i_transparent := false; i_blas := 0 |}.

Fixpoint onLast (f : RayTracingTlasInstance -> RayTracingTlasInstance)
         (l : list RayTracingTlasInstance) : list RayTracingTlasInstance :=
  match l with
  | [] => []
  | [x] => [f x]
  | x :: rest => x :: onLast f rest
  end.

Definition setter (f : RayTracingTlasInstance -> RayTracingTlasInstance)
           (d : RayTracingTlasDescriptor) : RayTracingTlasDescriptor :=
  {| m_instances := onLast f (m_instances d) |}.

Definition Build : RayTracingTlasDescriptor := {| m_instances := [] |}.

Definition Instance (d : RayTracingTlasDescriptor) : RayTracingTlasDescriptor :=
  {| m_instances := m_instances d ++ [newInstance] |}.

Definition InstanceID (v : Z) := setter (fun i =>
  {| i_instanceID := v; i_instanceMask := i_instanceMask i;
     i_hitGroupIndex := i_hitGroupIndex i; i_transform := i_transform i;
     i_nonUniformScale := i_nonUniformScale i; i_transparent := i_transparent i;
     i_blas := i_blas i |}).

Definition InstanceMask (v : Z) := setter (fun i =>
  {| i_instanceID := i_instanceID i; i_instanceMask := v;
     i_hitGroupIndex := i_hitGroupIndex i; i_transform := i_transform i;
     i_nonUniformScale := i_nonUniformScale i; i_transparent := i_transparent i;
     i_blas := i_blas i |}).

Definition HitGroupIndex (v : Z) := setter (fun i =>
  {| i_instanceID := i_instanceID i; i_instanceMask := i_instanceMask i;
     i_hitGroupIndex := v; i_transform := i_transform i;
     i_nonUniformScale := i_nonUniformScale i; i_transparent := i_transparent i;
     i_blas := i_blas i |}).

Definition Blas (v : RHI.RayTracingBlas) := setter (fun i =>
  {| i_instanceID := i_instanceID i; i_instanceMask := i_instanceMask i;
     i_hitGroupIndex := i_hitGroupIndex i; i_transform := i_transform i;
     i_nonUniformScale := i_nonUniformScale i; i_transparent := i_transparent i;
     i_blas := v |}).

Definition Transform (v : Transform) := setter (fun i =>
  {| i_instanceID := i_instanceID i; i_instanceMask := i_instanceMask i;
     i_hitGroupIndex := i_hitGroupIndex i; i_transform := v;
     i_nonUniformScale := i_nonUniformScale i; i_transparent := i_transparent i;
     i_blas := i_blas i |}).

Definition NonUniformScale (v : Vector3) := setter (fun i =>
  {| i_instanceID := i_instanceID i; i_instanceMask := i_instanceMask i;
     i_hitGroupIndex := i_hitGroupIndex i; i_transform := i_transform i;
     i_nonUniformScale := v; i_transparent := i_transparent i;
     i_blas := i_blas i |}).

Definition Transparent (v : bool) := setter (fun i =>
  {| i_instanceID := i_instanceID i; i_instanceMask := i_instanceMask i;
     i_hitGroupIndex := i_hitGroupIndex i; i_transform := i_transform i;
     i_nonUniformScale := i_nonUniformScale i; i_transparent := v;
     i_blas := i_blas i |}).

End TlasBuilder.

(** Lines 72-86: the loop over the sub-meshes. The loop state is the
    descriptor under construction and the [uint32_t instanceIndex]. *)
Definition tlasInstanceLoopBody (st : RayTracingTlasDescriptor * Z) (subMesh : SubMesh)
  : RayTracingTlasDescriptor * Z :=
  let (tlasDescriptorBuild, instanceIndex) := st in
  (TlasBuilder.Transparent (PrimFloat.ltb (m_irradianceColor_A subMesh) 1%float)
     (TlasBuilder.NonUniformScale (m_nonUniformScale (m_mesh subMesh))
        (TlasBuilder.Transform (m_transform (m_mesh subMesh))
           (TlasBuilder.Blas (m_blas subMesh)
              (TlasBuilder.HitGroupIndex 0
                 (TlasBuilder.InstanceMask (m_instanceMask (m_mesh subMesh))
                    (TlasBuilder.InstanceID instanceIndex
                       (TlasBuilder.Instance tlasDescriptorBuild))))))),
   wrap32 (instanceIndex + 1)).

(** Lines 68-86: the TLAS descriptor created from the sub-mesh vector. *)
Definition createTlasDescriptor (subMeshes : list SubMesh) : RayTracingTlasDescriptor :=
  fst (fold_left tlasInstanceLoopBody subMeshes (TlasBuilder.Build, 0)).

(** ** The feature processor, as the pass sees it *)

(** [RHI::RayTracingTlas]: the pass only asks for its TLAS buffer, a
    possibly null [RHI::Ptr<RHI::Buffer>]. *)
Record RayTracingTlas := { tlas_id : Z; GetTlasBuffer : option RHI.Buffer }.

(** [AZ::Uuid] is a 128-bit value; [Data::AssetId] is the key of the BLAS
    instance map. *)
Definition Uuid := Z.
Record AssetId := { m_guid : Uuid; m_subId : Z }.

Module BlasInstance.

(** [RayTracingFeatureProcessor::SubMeshBlasInstance] *)
Record SubMeshBlasInstance := { m_blas : RHI.RayTracingBlas }.

End BlasInstance.
Definition SubMeshBlasInstance := BlasInstance.SubMeshBlasInstance.

(** [RayTracingFeatureProcessor::MeshBlasInstance] *)
Record MeshBlasInstance := {
  m_subMeshes : list SubMeshBlasInstance;
  m_blasBuilt : bool;
  m_isSkinnedMesh : bool
}.

(** [blasInstance.second.m_blasBuilt = true] *)
Definition set_blasBuilt (b : bool) (i : MeshBlasInstance) : MeshBlasInstance :=
  {| m_subMeshes := m_subMeshes i; m_blasBuilt := b;
     m_isSkinnedMesh := m_isSkinnedMesh i |}.

(** [RayTracingFeatureProcessor::BlasInstanceMap] is an unordered map; the
    association list holds its entries in the order in which the range-for
    of this frame visits them. *)
Definition BlasInstanceMap := list (AssetId * MeshBlasInstance).

(** What the getters of [RayTracingFeatureProcessor] return. The two counts
    are getters of their own in the code, so they are fields of their own. *)
Record RayTracingFeatureProcessor := {
  GetRevision : Z;
  GetSubMeshes : list SubMesh;
  GetSubMeshCount : Z;
  GetBlasInstances : BlasInstanceMap;
  GetSkinnedMeshCount : Z;
  GetTlas : RayTracingTlas;
  GetTlasAttachmentId : RHI.AttachmentId
}.

Definition set_BlasInstances (m : BlasInstanceMap) (fp : RayTracingFeatureProcessor)
  : RayTracingFeatureProcessor :=
  {| GetRevision := GetRevision fp; GetSubMeshes := GetSubMeshes fp;
     GetSubMeshCount := GetSubMeshCount fp; GetBlasInstances := m;
     GetSkinnedMeshCount := GetSkinnedMeshCount fp; GetTlas := GetTlas fp;
     GetTlasAttachmentId := GetTlasAttachmentId fp |}.

Definition set_Tlas (t : RayTracingTlas) (fp : RayTracingFeatureProcessor)
  : RayTracingFeatureProcessor :=
  {| GetRevision := GetRevision fp; GetSubMeshes := GetSubMeshes fp;
     GetSubMeshCount := GetSubMeshCount fp; GetBlasInstances := GetBlasInstances fp;
     GetSkinnedMeshCount := GetSkinnedMeshCount fp; GetTlas := t;
     GetTlasAttachmentId := GetTlasAttachmentId fp |}.

(** [scene->GetFeatureProcessor<RayTracingFeatureProcessor>()], null when no
    feature processor is registered. *)
Definition Scene := option RayTracingFeatureProcessor.

(** ** The pass *)

(** Modelled from the spec: the members of the pass are declared in
    [RayTracingAccelerationStructurePass.h], which is not among the sources.
    They are the spec's last-processed revision and frame counter, owned by
    the pass; both are taken as [uint32_t], the type of the other counters of
    the pass ([instanceIndex], [rayTracingSubMeshCount]). The revision is only
    compared and stored; the frame counter is incremented. *)
Record RayTracingAccelerationStructurePass := {
  m_rayTracingRevision : Z;
  m_frameCount : Z
}.

(** ** Command emission: [BuildCommandList] *)

(** What [context.GetCommandList()] records. *)
Inductive Command :=
| BuildBottomLevelAccelerationStructure (blas : RHI.RayTracingBlas)
| UpdateBottomLevelAccelerationStructure (blas : RHI.RayTracingBlas)
| BuildTopLevelAccelerationStructure (tlas : RayTracingTlas).

Definition isBottomLevelCommand (c : Command) : bool :=
  match c with
  | BuildBottomLevelAccelerationStructure _ => true
  | UpdateBottomLevelAccelerationStructure _ => true
  | BuildTopLevelAccelerationStructure _ => false
  end.

Definition isBottomLevelBuild (c : Command) : bool :=
  match c with
  | BuildBottomLevelAccelerationStructure _ => true
  | _ => false
  end.

Definition isBottomLevelUpdate (c : Command) : bool :=
  match c with
  | UpdateBottomLevelAccelerationStructure _ => true
  | _ => false
  end.

(** [++m_frameCount] on a [uint32_t]. *)
Definition nextFrameCount (frameCount : Z) : Z := wrap32 (frameCount + 1).

Section BuildCommandList.

(** [AZ::Uuid::GetHash()], a [size_t]; it belongs to AzCore. *)
Variable GetHash : Uuid -> Z.

(** The constant [SKINNED_BLAS_REBUILD_FRAME_INTERVAL] is declared in the
    header of the pass, which is not among the sources. *)
Variable SKINNED_BLAS_REBUILD_FRAME_INTERVAL : Z.

(** Line 185: [(assetGuid + submeshIndex + m_frameCount) %
    SKINNED_BLAS_REBUILD_FRAME_INTERVAL], computed in [size_t]: the [int]
    index and the [uint32_t] frame count are converted to 64 bits and each
    addition wraps. *)
Definition rebuildKey (assetGuid submeshIndex frameCount : Z) : Z :=
  wrap64 (wrap64 (wrap64 assetGuid + submeshIndex) + frameCount)
    mod SKINNED_BLAS_REBUILD_FRAME_INTERVAL.

(** Lines 172-194: the body of the loop over the sub-meshes of one BLAS
    instance; it records exactly one command. *)
Definition subMeshCommand (blasInstance : AssetId * MeshBlasInstance)
           (frameCount submeshIndex : Z) (submeshBlasInstance : SubMeshBlasInstance)
  : Command :=
  let isSkinnedMesh := m_isSkinnedMesh (snd blasInstance) in
  if Bool.eqb (m_blasBuilt (snd blasInstance)) false then
    BuildBottomLevelAccelerationStructure (BlasInstance.m_blas submeshBlasInstance)
  else
    let assetGuid := GetHash (m_guid (fst blasInstance)) in
    if isSkinnedMesh && negb (rebuildKey assetGuid submeshIndex frameCount =? 0) then
      UpdateBottomLevelAccelerationStructure (BlasInstance.m_blas submeshBlasInstance)
    else
      BuildBottomLevelAccelerationStructure (BlasInstance.m_blas submeshBlasInstance).

(** Lines 170-195: [for (auto submeshIndex = 0; submeshIndex < size; ++submeshIndex)];
    [rest] is [m_subMeshes] from [submeshIndex] on. *)
Fixpoint subMeshLoop (blasInstance : AssetId * MeshBlasInstance) (frameCount : Z)
         (submeshIndex : Z) (rest : list SubMeshBlasInstance) : list Command :=
  match rest with
  | [] => []
  | submeshBlasInstance :: rest' =>
      subMeshCommand blasInstance frameCount submeshIndex submeshBlasInstance
        :: subMeshLoop blasInstance frameCount (submeshIndex + 1) rest'
  end.

(** Lines 167-198: the body of the loop over the BLAS instances. It returns
    the commands it records and the entry as it leaves it. *)
Definition blasInstanceBody (frameCount : Z) (blasInstance : AssetId * MeshBlasInstance)
  : list Command * (AssetId * MeshBlasInstance) :=
  let isSkinnedMesh := m_isSkinnedMesh (snd blasInstance) in
  if Bool.eqb (m_blasBuilt (snd blasInstance)) false || isSkinnedMesh then
    (subMeshLoop blasInstance frameCount 0 (m_subMeshes (snd blasInstance)),
     (fst blasInstance, set_blasBuilt true (snd blasInstance)))
  else ([], blasInstance).

(** Lines 165-199: [for (auto& blasInstance : blasInstances)]. *)
Fixpoint blasInstanceLoop (frameCount : Z) (blasInstances : BlasInstanceMap)
  : list Command * BlasInstanceMap :=
  match blasInstances with
  | [] => ([], [])
  | blasInstance :: rest =>
      let (commands, blasInstance') := blasInstanceBody frameCount blasInstance in
      let (commands', rest') := blasInstanceLoop frameCount rest in
      (commands ++ commands', blasInstance' :: rest')
  end.

(** The result of one call: the pass members, the scene and the commands
    recorded during the call, in order. *)
Record Emitted := {
  e_pass : RayTracingAccelerationStructurePass;
  e_scene : Scene;
  e_commands : list Command
}.

(** Lines 133-205. *)
Definition BuildCommandList (this : RayTracingAccelerationStructurePass) (scene : Scene)
  : Emitted :=
  match scene with
  | None => {| e_pass := this; e_scene := scene; e_commands := [] |}
  | Some rayTracingFeatureProcessor =>
      match GetTlasBuffer (GetTlas rayTracingFeatureProcessor) with
      | None => {| e_pass := this; e_scene := scene; e_commands := [] |}
      | Some _ =>
          if (GetRevision rayTracingFeatureProcessor =? m_rayTracingRevision this)
             && (GetSkinnedMeshCount rayTracingFeatureProcessor =? 0)
          then {| e_pass := this; e_scene := scene; e_commands := [] |}
          else
            let this1 :=
              {| m_rayTracingRevision := GetRevision rayTracingFeatureProcessor;
                 m_frameCount := m_frameCount this |} in
            if GetSubMeshCount rayTracingFeatureProcessor =? 0
            then {| e_pass := this1; e_scene := scene; e_commands := [] |}
            else
              let (commands, blasInstances) :=
                blasInstanceLoop (m_frameCount this1)
                                 (GetBlasInstances rayTracingFeatureProcessor) in
              {| e_pass :=
                   {| m_rayTracingRevision := m_rayTracingRevision this1;
                      m_frameCount := nextFrameCount (m_frameCount this1) |};
                 e_scene := Some (set_BlasInstances blasInstances rayTracingFeatureProcessor);
                 e_commands :=
                   commands ++
                   [BuildTopLevelAccelerationStructure (GetTlas rayTracingFeatureProcessor)] |}
      end
  end.

(** A frame reaches the BLAS loop when none of the four early returns of
    lines 138-161 is taken. *)
Definition reachesBlasLoop (this : RayTracingAccelerationStructurePass)
           (fp : RayTracingFeatureProcessor) : bool :=
  match GetTlasBuffer (GetTlas fp) with
  | None => false
  | Some _ =>
      negb ((GetRevision fp =? m_rayTracingRevision this) && (GetSkinnedMeshCount fp =? 0))
      && negb (GetSubMeshCount fp =? 0)
  end.

End BuildCommandList.

(** ** Dependency declaration: [SetupFrameGraphDependencies] *)

(** The binding found on the skinning pass:
    [binding->m_unifiedScopeDesc.GetAsBuffer()]. *)
Record UnifiedScopeAttachmentDescriptor := {
  GetAsBuffer : RHI.BufferScopeAttachmentDescriptor
}.
Record PassAttachmentBinding := { m_unifiedScopeDesc : UnifiedScopeAttachmentDescriptor }.

(** A pass found by [FindAdjacentPass]; [FindAttachmentBinding] returns a
    possibly null pointer to one of its bindings. *)
Record AdjacentPass := { FindAttachmentBinding : string -> option PassAttachmentBinding }.

(** [RHI::FrameGraphInterface]: the answers of the frame graph of this frame. *)
Record FrameGraphInterface := {
  IsAttachmentValid : RHI.AttachmentId -> bool;
  ImportBuffer : RHI.AttachmentId -> RHI.Buffer -> RHI.ResultCode;
  UseShaderAttachment :
    RHI.BufferScopeAttachmentDescriptor -> RHI.ScopeAttachmentAccess -> RHI.ResultCode
}.

(** The collaborators of the pass other than the feature processor.
    [CreateBuffers] is [RayTracingTlas::CreateBuffers(device, descriptor, pools)]:
    it gives the TLAS as it is after the call. *)
Record Collaborators := {
  frameGraph : FrameGraphInterface;
  CreateBuffers : RayTracingTlas -> RayTracingTlasDescriptor -> RayTracingTlas;
  FindAdjacentPass : string -> option AdjacentPass
}.

(** The calls made on the collaborators, in the order they are made.
    [IsAttachmentValid] only reads the attachment database and is not logged. *)
Inductive Event :=
| EvCreateBuffers (tlasDescriptor : RayTracingTlasDescriptor)
| EvImportBuffer (attachmentId : RHI.AttachmentId) (buffer : RHI.Buffer)
| EvUseShaderAttachment (desc : RHI.BufferScopeAttachmentDescriptor)
                        (access : RHI.ScopeAttachmentAccess)
| EvFindAdjacentPass (passName : string)
| EvFindAttachmentBinding (slotName : string)
| EvUpdateRayTracingSrgs.

(** How a call of [SetupFrameGraphDependencies] ends: it returns, an
    [AZ_Assert] fires, or a null pointer is dereferenced. *)
Inductive Outcome (A : Type) :=
| Returned (a : A)
| AssertFailed (message : string) (result : RHI.ResultCode)
| NullDereference.
Arguments Returned {A} a.
Arguments AssertFailed {A} message result.
Arguments NullDereference {A}.

(** A computation that logs its calls and may stop early. *)
Definition Traced (A : Type) : Type := list Event * Outcome A.

Definition ret {A} (a : A) : Traced A := ([], Returned a).

Definition bind {A B} (m : Traced A) (k : A -> Traced B) : Traced B :=
  match m with
  | (trace, Returned a) => let (trace', out) := k a in (trace ++ trace', out)
  | (trace, AssertFailed message result) => (trace, AssertFailed message result)
  | (trace, NullDereference) => (trace, NullDereference)
  end.

Notation "x <- m ;; k" := (bind m (fun x => k))
  (at level 61, m at next level, right associativity).
Notation "m ;;; k" := (bind m (fun _ => k))
  (at level 61, right associativity).

Definition call (e : Event) : Traced unit := ([e], Returned tt).

(** Modelled from the spec: [AZ_Assert] is a macro of AzCore and is not among
    the sources. The spec's error-handling design puts a failed import and a
    failed dependency declaration in the fatal class, which terminates
    execution with a diagnostic: a failed assertion ends the call with its
    message and the result code it prints. *)
Definition AZ_Assert (condition : bool) (message : string) (result : RHI.ResultCode)
  : Traced unit :=
  if condition then ret tt else ([], AssertFailed message result).

(** [ptr->member] on a possibly null pointer; the source makes no check. *)
Definition deref {A} (ptr : option A) : Traced A :=
  match ptr with
  | Some a => ret a
  | None => ([], NullDereference)
  end.

(** Lines 92-112: import and attach the TLAS buffer. *)
Definition attachTlasBuffer (frameGraph : FrameGraphInterface)
           (rayTracingFeatureProcessor : RayTracingFeatureProcessor)
           (rayTracingTlasBuffer : option RHI.Buffer) (rayTracingSubMeshCount : Z)
  : Traced unit :=
  match rayTracingTlasBuffer with
  | Some buffer =>
      if negb (rayTracingSubMeshCount =? 0) then
        let tlasAttachmentId := GetTlasAttachmentId rayTracingFeatureProcessor in
        (if Bool.eqb (IsAttachmentValid frameGraph tlasAttachmentId) false then
           call (EvImportBuffer tlasAttachmentId buffer) ;;;
           let result := ImportBuffer frameGraph tlasAttachmentId buffer in
           AZ_Assert (RHI.ResultCode_eqb result RHI.Success)
                     "Failed to import ray tracing TLAS buffer with error %d" result
         else ret tt) ;;;
        let tlasBufferByteCount := wrap32 (RHI.m_byteCount buffer) in
        let tlasBufferViewDescriptor := RHI.CreateRayTracingTLAS tlasBufferByteCount in
        let desc :=
          {| RHI.m_attachmentId := tlasAttachmentId;
             RHI.m_bufferViewDescriptor := tlasBufferViewDescriptor;
             RHI.m_loadAction := RHI.DontCare |} in
        call (EvUseShaderAttachment desc RHI.Write)
      else ret tt
  | None => ret tt
  end.

(** Lines 62-113: the work done when the revision changed. It returns the
    feature processor with the TLAS as [CreateBuffers] left it. *)
Definition rebuildTlas (env : Collaborators)
           (rayTracingFeatureProcessor : RayTracingFeatureProcessor)
  : Traced RayTracingFeatureProcessor :=
  let subMeshes := GetSubMeshes rayTracingFeatureProcessor in
  let rayTracingSubMeshCount := GetSubMeshCount rayTracingFeatureProcessor in
  let tlasDescriptor := createTlasDescriptor subMeshes in
  call (EvCreateBuffers tlasDescriptor) ;;;
  let rayTracingTlas := CreateBuffers env (GetTlas rayTracingFeatureProcessor) tlasDescriptor in
  let rayTracingTlasBuffer := GetTlasBuffer rayTracingTlas in
  attachTlasBuffer (frameGraph env) rayTracingFeatureProcessor
                   rayTracingTlasBuffer rayTracingSubMeshCount ;;;
  ret (set_Tlas rayTracingTlas rayTracingFeatureProcessor).

(** Lines 115-123: attach the output of the skinning pass. *)
Definition attachSkinningOutput (env : Collaborators) : Traced unit :=
  call (EvFindAdjacentPass "SkinningPass") ;;;
  skinningPassPtr <- deref (FindAdjacentPass env "SkinningPass") ;;
  call (EvFindAttachmentBinding "SkinnedMeshOutputStream") ;;;
  skinnedMeshOutputStreamBindingPtr <-
    deref (FindAttachmentBinding skinningPassPtr "SkinnedMeshOutputStream") ;;
  let desc := GetAsBuffer (m_unifiedScopeDesc skinnedMeshOutputStreamBindingPtr) in
  call (EvUseShaderAttachment desc RHI.Read) ;;;
  let result := UseShaderAttachment (frameGraph env) desc RHI.Read in
  AZ_Assert (RHI.ResultCode_eqb result RHI.Success)
            "Failed to attach SkinnedMeshOutputStream buffer with error %d" result.

(** Lines 53-131. *)
Definition SetupFrameGraphDependencies (this : RayTracingAccelerationStructurePass)
           (env : Collaborators) (scene : Scene) : Traced Scene :=
  match scene with
  | Some rayTracingFeatureProcessor =>
      fp <- (if negb (GetRevision rayTracingFeatureProcessor =? m_rayTracingRevision this)
             then rebuildTlas env rayTracingFeatureProcessor
             else ret rayTracingFeatureProcessor) ;;
      (if GetSkinnedMeshCount fp >? 0 then attachSkinningOutput env else ret tt) ;;;
      call EvUpdateRayTracingSrgs ;;;
      ret (Some fp)
  | None => ret None
  end.

(** ** The rebuild rule, in the specification's words *)

(** The specification's rule for a built, deforming instance:
    [key = hash(assetIdentity) + subMeshIndex + frameCounter], a full rebuild
    iff [key mod REBUILD_INTERVAL == 0], over the integers. *)
Definition spec_fullRebuild (assetHash subMeshIndex frameCounter REBUILD_INTERVAL : Z)
  : bool :=
  (assetHash + subMeshIndex + frameCounter) mod REBUILD_INTERVAL =? 0.

(** The frame counter after [frames] more frames that reach the end of
    [BuildCommandList]. *)
Definition frameCountAfter (frames : nat) (frameCount : Z) : Z :=
  Nat.iter frames nextFrameCount frameCount.

(** ** Reading a trace *)

Definition isImportBuffer (e : Event) : bool :=
  match e with
  | EvImportBuffer _ _ => true
  | _ => false
  end.

Definition isWriteUse (e : Event) : bool :=
  match e with
  | EvUseShaderAttachment _ RHI.Write => true
  | _ => false
  end.

(** The write dependency on the TLAS attachment: the attachment identifier of
    the feature processor, the TLAS view of the buffer, load action
    [DontCare], access [Write]. *)
Definition tlasWriteDependency (fp : RayTracingFeatureProcessor) (buffer : RHI.Buffer)
  : Event :=
  EvUseShaderAttachment
    {| RHI.m_attachmentId := GetTlasAttachmentId fp;
       RHI.m_bufferViewDescriptor := RHI.CreateRayTracingTLAS (wrap32 (RHI.m_byteCount buffer));
       RHI.m_loadAction := RHI.DontCare |}
    RHI.Write.

(** The three calls that attach the output of the skinning pass. *)
Definition skinningReadDependency (binding : PassAttachmentBinding) : list Event :=
  [EvFindAdjacentPass "SkinningPass";
   EvFindAttachmentBinding "SkinnedMeshOutputStream";
   EvUseShaderAttachment (GetAsBuffer (m_unifiedScopeDesc binding)) RHI.Read].

(** ** A small scene *)

(** Concrete frames on which the properties below are run: a scene with one
    static mesh of three sub-meshes that was never built, one skinned mesh of
    two sub-meshes that is built, and one mesh without sub-meshes. *)
Module Scenario.

(** A stand-in for [AZ::Uuid::GetHash]. *)
Definition sampleHash (guid : Uuid) : Z := wrap64 (guid * 31 + 7).

Definition mesh : Mesh :=
  {| m_instanceMask := 1; m_transform := Transform_Identity;
     m_nonUniformScale := Vector3_One |}.

Definition subMeshes : list SubMesh :=
  [ {| m_mesh := mesh; m_blas := 101; m_irradianceColor_A := 1 |};
    {| m_mesh := mesh; m_blas := 102; m_irradianceColor_A := 0.5 |};
    {| m_mesh := mesh; m_blas := 103; m_irradianceColor_A := 1 |} ].

Definition tlasBuffer : RHI.Buffer := {| RHI.buffer_id := 7; RHI.m_byteCount := 4096 |}.
Definition tlas : RayTracingTlas := {| tlas_id := 1; GetTlasBuffer := Some tlasBuffer |}.
Definition tlasWithoutBuffer : RayTracingTlas := {| tlas_id := 1; GetTlasBuffer := None |}.

Definition staticKey : AssetId := {| m_guid := 42; m_subId := 0 |}.
Definition staticInstance : MeshBlasInstance :=
  {| m_subMeshes := [ {| BlasInstance.m_blas := 101 |}; {| BlasInstance.m_blas := 102 |};
                      {| BlasInstance.m_blas := 103 |} ];
     m_blasBuilt := false; m_isSkinnedMesh := false |}.

Definition skinnedKey : AssetId := {| m_guid := 43; m_subId := 0 |}.
Definition skinnedInstance : MeshBlasInstance :=
  {| m_subMeshes := [ {| BlasInstance.m_blas := 201 |}; {| BlasInstance.m_blas := 202 |} ];
     m_blasBuilt := true; m_isSkinnedMesh := true |}.

Definition emptyKey : AssetId := {| m_guid := 44; m_subId := 0 |}.
Definition emptyInstance : MeshBlasInstance :=
  {| m_subMeshes := []; m_blasBuilt := false; m_isSkinnedMesh := false |}.

Definition pass : RayTracingAccelerationStructurePass :=
  {| m_rayTracingRevision := 0; m_frameCount := 0 |}.

(** Revision 1 against a stored revision 0. *)
Definition featureProcessor : RayTracingFeatureProcessor :=
  {| GetRevision := 1; GetSubMeshes := subMeshes; GetSubMeshCount := 3;
     GetBlasInstances := [ (staticKey, staticInstance); (skinnedKey, skinnedInstance);
                           (emptyKey, emptyInstance) ];
     GetSkinnedMeshCount := 1; GetTlas := tlas;
     GetTlasAttachmentId := "RayTracingTlasAttachmentId"%string |}.

(** The scene of [featureProcessor] with the static mesh alone. *)
Definition staticFeatureProcessor : RayTracingFeatureProcessor :=
  {| GetRevision := 1; GetSubMeshes := subMeshes; GetSubMeshCount := 3;
     GetBlasInstances := [ (staticKey, staticInstance) ];
     GetSkinnedMeshCount := 0; GetTlas := tlas;
     GetTlasAttachmentId := "RayTracingTlasAttachmentId"%string |}.

(** A scene that lost all its meshes: a new revision, no sub-mesh, and a TLAS
    without a buffer. *)
Definition emptiedFeatureProcessor : RayTracingFeatureProcessor :=
  {| GetRevision := 1; GetSubMeshes := []; GetSubMeshCount := 0;
     GetBlasInstances := [];
     GetSkinnedMeshCount := 0; GetTlas := tlasWithoutBuffer;
     GetTlasAttachmentId := "RayTracingTlasAttachmentId"%string |}.

(** A scene whose revision is the stored one and that has no skinned mesh. *)
Definition settledFeatureProcessor : RayTracingFeatureProcessor :=
  {| GetRevision := 0; GetSubMeshes := subMeshes; GetSubMeshCount := 3;
     GetBlasInstances := [ (staticKey, staticInstance) ];
     GetSkinnedMeshCount := 0; GetTlas := tlas;
     GetTlasAttachmentId := "RayTracingTlasAttachmentId"%string |}.

(** The pipeline around the pass. *)
Definition skinnedMeshOutputStream : PassAttachmentBinding :=
  {| m_unifiedScopeDesc :=
       {| GetAsBuffer :=
            {| RHI.m_attachmentId := "SkinnedMeshOutputStream"%string;
               RHI.m_bufferViewDescriptor := RHI.OtherBufferView 0 1024 4;
               RHI.m_loadAction := RHI.Load |} |} |}.

Definition skinningPass : AdjacentPass :=
  {| FindAttachmentBinding := fun slotName =>
       if String.eqb slotName "SkinnedMeshOutputStream"
       then Some skinnedMeshOutputStream else None |}.

(** A skinning pass that does not have the binding. *)
Definition skinningPassWithoutOutput : AdjacentPass :=
  {| FindAttachmentBinding := fun _ => None |}.

Definition acceptingFrameGraph : FrameGraphInterface :=
  {| IsAttachmentValid := fun _ => false;
     ImportBuffer := fun _ _ => RHI.Success;
     UseShaderAttachment := fun _ _ => RHI.Success |}.

(** [CreateBuffers] that allocates 64 bytes per instance and leaves the TLAS
    without a buffer when there is no instance. *)
Definition createBuffers (tlas : RayTracingTlas) (d : RayTracingTlasDescriptor)
  : RayTracingTlas :=
  match m_instances d with
  | [] => {| tlas_id := tlas_id tlas; GetTlasBuffer := None |}
  | _ => {| tlas_id := tlas_id tlas;
            GetTlasBuffer :=
              Some {| RHI.buffer_id := 7;
                      RHI.m_byteCount := 64 * Z.of_nat (length (m_instances d)) |} |}
  end.

Definition pipeline : Collaborators :=
  {| frameGraph := acceptingFrameGraph;
     CreateBuffers := createBuffers;
     FindAdjacentPass := fun passName =>
       if String.eqb passName "SkinningPass" then Some skinningPass else None |}.

Definition pipelineWithoutSkinningOutput : Collaborators :=
  {| frameGraph := acceptingFrameGraph;
     CreateBuffers := createBuffers;
     FindAdjacentPass := fun passName =>
       if String.eqb passName "SkinningPass" then Some skinningPassWithoutOutput else None |}.

(** A frame graph that rejects every import. *)
Definition rejectingFrameGraph : FrameGraphInterface :=
  {| IsAttachmentValid := fun _ => false;
     ImportBuffer := fun _ _ => RHI.Fail;
     UseShaderAttachment := fun _ _ => RHI.Success |}.

Definition pipelineRejectingImports : Collaborators :=
  {| frameGraph := rejectingFrameGraph;
     CreateBuffers := createBuffers;
     FindAdjacentPass := fun passName =>
       if String.eqb passName "SkinningPass" then Some skinningPass else None |}.

(** The whole scene at the stored revision: only the skinned mesh keeps the
    pass busy. *)
Definition skinnedFeatureProcessor : RayTracingFeatureProcessor :=
  {| GetRevision := 0; GetSubMeshes := subMeshes; GetSubMeshCount := 3;
     GetBlasInstances := [ (staticKey, staticInstance); (skinnedKey, skinnedInstance);
                           (emptyKey, emptyInstance) ];
     GetSkinnedMeshCount := 1; GetTlas := tlas;
     GetTlasAttachmentId := "RayTracingTlasAttachmentId"%string |}.

End Scenario.

(** ** Reading the commands and the instance map *)

(** The BLAS a bottom-level command works on. *)
Definition bottomLevelTarget (c : Command) : list RHI.RayTracingBlas :=
  match c with
  | BuildBottomLevelAccelerationStructure blas => [blas]
  | UpdateBottomLevelAccelerationStructure blas => [blas]
  | BuildTopLevelAccelerationStructure _ => []
  end.

(** The test of line 168: the instance was never built, or it is skinned. *)
Definition needsBlasWork (blasInstance : AssetId * MeshBlasInstance) : bool :=
  Bool.eqb (m_blasBuilt (snd blasInstance)) false || m_isSkinnedMesh (snd blasInstance).

(** The BLAS objects of an instance that passes the test of line 168. *)
Definition blasWork (blasInstance : AssetId * MeshBlasInstance) : list RHI.RayTracingBlas :=
  if needsBlasWork blasInstance
  then map BlasInstance.m_blas (m_subMeshes (snd blasInstance))
  else [].

(** An entry of the map with its built flag set. *)
Definition markBuilt (blasInstance : AssetId * MeshBlasInstance)
  : AssetId * MeshBlasInstance :=
  (fst blasInstance, set_blasBuilt true (snd blasInstance)).

Definition isCreateBuffers (e : Event) : bool :=
  match e with
  | EvCreateBuffers _ => true
  | _ => false
  end.

Definition isUpdateRayTracingSrgs (e : Event) : bool :=
  match e with
  | EvUpdateRayTracingSrgs => true
  | _ => false
  end.

(** ** The two parts of dependency declaration *)

(** The calls of lines 62-113 when the revision changed, none otherwise. *)
Definition tlasCalls (this : RayTracingAccelerationStructurePass) (env : Collaborators)
           (fp : RayTracingFeatureProcessor) : Traced RayTracingFeatureProcessor :=
  if negb (GetRevision fp =? m_rayTracingRevision this) then rebuildTlas env fp else ret fp.

(** The calls of lines 117-123 when there is a skinned mesh, none otherwise. *)
Definition skinningCalls (env : Collaborators) (fp : RayTracingFeatureProcessor)
  : Traced unit :=
  if GetSkinnedMeshCount fp >? 0 then attachSkinningOutput env else ret tt.

(** ** Consecutive frames *)

(** [frames] consecutive calls of [BuildCommandList] on the same pass, the
    feature processor being touched by nothing else in between. The result is
    the pass members and the scene after the last call and the commands of
    each call, first call first. *)
Fixpoint runFrames (GetHash : Uuid -> Z) (SKINNED_BLAS_REBUILD_FRAME_INTERVAL : Z)
         (frames : nat) (this : RayTracingAccelerationStructurePass) (scene : Scene)
  : RayTracingAccelerationStructurePass * Scene * list (list Command) :=
  match frames with
  | O => (this, scene, [])
  | S frames' =>
      let r := BuildCommandList GetHash SKINNED_BLAS_REBUILD_FRAME_INTERVAL this scene in
      let '(this', scene', log) :=
        runFrames GetHash SKINNED_BLAS_REBUILD_FRAME_INTERVAL frames' (e_pass r) (e_scene r) in
      (this', scene', e_commands r :: log)
  end.

(** * Properties *)

(** ** The TLAS descriptor *)

(** The instance descriptor the specification asks for a sub-mesh that gets
    the instance ID [instanceID]. *)
Definition spec_instance (instanceID : Z) (subMesh : SubMesh) : RayTracingTlasInstance :=
  {| i_instanceID := instanceID;
     i_instanceMask := m_instanceMask (m_mesh subMesh);
     i_hitGroupIndex := 0;
     i_transform := m_transform (m_mesh subMesh);
     i_nonUniformScale := m_nonUniformScale (m_mesh subMesh);
     i_transparent := PrimFloat.ltb (m_irradianceColor_A subMesh) 1%float;
     i_blas := m_blas subMesh |}.

(** The descriptors of a run of sub-meshes whose first one gets [instanceIndex],
    counted the way the [uint32_t] counter of the loop counts. *)
Fixpoint spec_instances_from (instanceIndex : Z) (subMeshes : list SubMesh)
  : list RayTracingTlasInstance :=
  match subMeshes with
  | [] => []
  | subMesh :: rest =>
      spec_instance instanceIndex subMesh
        :: spec_instances_from (wrap32 (instanceIndex + 1)) rest
  end.

Lemma onLast_snoc f l x : TlasBuilder.onLast f (l ++ [x]) = l ++ [f x].
Proof.
  induction l as [|y l IH]; [reflexivity|].
  change ((y :: l) ++ [x]) with (y :: (l ++ [x])).
  simpl TlasBuilder.onLast. rewrite IH.
  destruct l; reflexivity.
Qed.

Lemma tlasInstanceLoopBody_appends d instanceIndex subMesh :
  tlasInstanceLoopBody (d, instanceIndex) subMesh =
  ({| m_instances := m_instances d ++ [spec_instance instanceIndex subMesh] |},
   wrap32 (instanceIndex + 1)).
Proof.
  unfold tlasInstanceLoopBody. f_equal.
  unfold TlasBuilder.Transparent, TlasBuilder.NonUniformScale, TlasBuilder.Transform,
    TlasBuilder.Blas, TlasBuilder.HitGroupIndex, TlasBuilder.InstanceMask,
    TlasBuilder.InstanceID, TlasBuilder.Instance, TlasBuilder.setter.
  cbn [m_instances]. rewrite !onLast_snoc. reflexivity.
Qed.

Lemma tlasInstanceLoop_spec subMeshes : forall d instanceIndex,
  fst (fold_left tlasInstanceLoopBody subMeshes (d, instanceIndex)) =
  {| m_instances := m_instances d ++ spec_instances_from instanceIndex subMeshes |}.
Proof.
  induction subMeshes as [|subMesh rest IH]; intros d instanceIndex.
  - destruct d as [l]. cbn. now rewrite app_nil_r.
  - cbn [fold_left]. rewrite tlasInstanceLoopBody_appends, IH.
    cbn [m_instances spec_instances_from]. now rewrite <- app_assoc.
Qed.

Lemma createTlasDescriptor_spec subMeshes :
  m_instances (createTlasDescriptor subMeshes) = spec_instances_from 0 subMeshes.
Proof. unfold createTlasDescriptor. now rewrite tlasInstanceLoop_spec. Qed.

Lemma spec_instances_from_length subMeshes : forall instanceIndex,
  length (spec_instances_from instanceIndex subMeshes) = length subMeshes.
Proof. induction subMeshes; intros; cbn; [reflexivity | now rewrite IHsubMeshes]. Qed.

Lemma wrap32_succ z : wrap32 (wrap32 z + 1) = wrap32 (z + 1).
Proof. unfold wrap32. now rewrite Z.add_mod_idemp_l by lia. Qed.

Lemma wrap32_small z : 0 <= z < 2 ^ 32 -> wrap32 z = z.
Proof. intros. unfold wrap32. now apply Z.mod_small. Qed.

Lemma spec_instances_from_nth subMeshes : forall instanceIndex n subMesh,
  nth_error subMeshes n = Some subMesh ->
  nth_error (spec_instances_from (wrap32 instanceIndex) subMeshes) n =
  Some (spec_instance (wrap32 (instanceIndex + Z.of_nat n)) subMesh).
Proof.
  induction subMeshes as [|s rest IH]; intros instanceIndex n subMesh Hn.
  - destruct n; discriminate.
  - destruct n as [|n].
    + cbn in Hn. injection Hn as ->. cbn. now rewrite Z.add_0_r.
    + cbn [nth_error] in Hn. cbn [spec_instances_from nth_error].
      rewrite wrap32_succ, (IH _ _ _ Hn). do 3 f_equal. lia.
Qed.

(** C3. For a sub-mesh vector whose size fits the [uint32_t] instance counter,
    the TLAS descriptor holds exactly one instance per sub-mesh; the instance
    at position [n] has instance ID [n], the mask, BLAS, transform and
    non-uniform scale of the [n]-th sub-mesh, hit group index 0, and is
    transparent iff the opacity of the sub-mesh is strictly below 1.0; the
    instance IDs, in order, are 0 .. count-1. *)
Theorem createTlasDescriptor_instances (subMeshes : list SubMesh)
  (Hsize : Z.of_nat (length subMeshes) <= 2 ^ 32) :
  length (m_instances (createTlasDescriptor subMeshes)) = length subMeshes /\
  (forall n subMesh,
      nth_error subMeshes n = Some subMesh ->
      nth_error (m_instances (createTlasDescriptor subMeshes)) n =
      Some {| i_instanceID := Z.of_nat n;
              i_instanceMask := m_instanceMask (m_mesh subMesh);
              i_hitGroupIndex := 0;
              i_transform := m_transform (m_mesh subMesh);
              i_nonUniformScale := m_nonUniformScale (m_mesh subMesh);
              i_transparent := PrimFloat.ltb (m_irradianceColor_A subMesh) 1%float;
              i_blas := m_blas subMesh |}) /\
  map i_instanceID (m_instances (createTlasDescriptor subMeshes)) =
  map Z.of_nat (seq 0 (length subMeshes)).
Proof.
  rewrite createTlasDescriptor_spec.
  assert (Hnth : forall n subMesh,
             nth_error subMeshes n = Some subMesh ->
             nth_error (spec_instances_from 0 subMeshes) n =
             Some (spec_instance (Z.of_nat n) subMesh)).
  { intros n subMesh Hn.
    assert (Hlt : (n < length subMeshes)%nat)
      by (apply nth_error_Some; congruence).
    change 0 with (wrap32 0) at 1.
    rewrite (spec_instances_from_nth _ 0 _ _ Hn).
    cbn [Z.add]. rewrite wrap32_small by lia. reflexivity. }
  split; [apply spec_instances_from_length|].
  split; [exact Hnth|].
  apply nth_error_ext. intros n.
  rewrite !nth_error_map, nth_error_seq.
  destruct (nth_error subMeshes n) as [subMesh|] eqn:Hn.
  - rewrite (Hnth _ _ Hn).
    assert (Hlt : (n < length subMeshes)%nat)
      by (apply nth_error_Some; congruence).
    apply Nat.ltb_lt in Hlt. rewrite Hlt. reflexivity.
  - assert (Hge : (length subMeshes <= n)%nat) by (now apply nth_error_None).
    assert (Hnone : nth_error (spec_instances_from 0 subMeshes) n = None)
      by (apply nth_error_None; now rewrite spec_instances_from_length).
    rewrite Hnone. apply Nat.ltb_ge in Hge. rewrite Hge. reflexivity.
Qed.

(** ** Command emission *)

Section Scheduling.

Variable GetHash : Uuid -> Z.
Variable SKINNED_BLAS_REBUILD_FRAME_INTERVAL : Z.

(** *** The loops, as maps over the containers *)

Lemma subMeshCommand_bottomLevel blasInstance frameCount submeshIndex s :
  isBottomLevelCommand
    (subMeshCommand GetHash SKINNED_BLAS_REBUILD_FRAME_INTERVAL
                    blasInstance frameCount submeshIndex s) = true.
Proof.
  unfold subMeshCommand.
  destruct (Bool.eqb _ false); [reflexivity|].
  destruct (_ && _); reflexivity.
Qed.

Lemma subMeshLoop_length blasInstance frameCount rest : forall submeshIndex,
  length (subMeshLoop GetHash SKINNED_BLAS_REBUILD_FRAME_INTERVAL
                      blasInstance frameCount submeshIndex rest) = length rest.
Proof.
  induction rest as [|s rest IH]; intros; cbn; [reflexivity|].
  f_equal. apply IH.
Qed.

Lemma subMeshLoop_nth blasInstance frameCount rest : forall submeshIndex n s,
  nth_error rest n = Some s ->
  nth_error (subMeshLoop GetHash SKINNED_BLAS_REBUILD_FRAME_INTERVAL
                         blasInstance frameCount submeshIndex rest) n =
  Some (subMeshCommand GetHash SKINNED_BLAS_REBUILD_FRAME_INTERVAL
                       blasInstance frameCount (submeshIndex + Z.of_nat n) s).
Proof.
  induction rest as [|s0 rest IH]; intros submeshIndex n s Hn.
  - destruct n; discriminate.
  - destruct n as [|n].
    + cbn in Hn. injection Hn as ->. cbn. now rewrite Z.add_0_r.
    + cbn [nth_error] in Hn. cbn [subMeshLoop nth_error].
      rewrite (IH _ _ _ Hn). do 2 f_equal. lia.
Qed.

Lemma subMeshLoop_bottomLevel blasInstance frameCount rest : forall submeshIndex,
  forallb isBottomLevelCommand
    (subMeshLoop GetHash SKINNED_BLAS_REBUILD_FRAME_INTERVAL
                 blasInstance frameCount submeshIndex rest) = true.
Proof.
  induction rest as [|s rest IH]; intros; [reflexivity|].
  cbn [subMeshLoop forallb].
  rewrite subMeshCommand_bottomLevel. apply IH.
Qed.

Lemma subMeshLoop_notBuilt key inst frameCount rest :
  m_blasBuilt inst = false ->
  forall submeshIndex,
    subMeshLoop GetHash SKINNED_BLAS_REBUILD_FRAME_INTERVAL
                (key, inst) frameCount submeshIndex rest =
    map (fun s => BuildBottomLevelAccelerationStructure (BlasInstance.m_blas s)) rest.
Proof.
  intros Hbuilt. induction rest as [|s rest IH]; intros; [reflexivity|].
  cbn [subMeshLoop map].
  rewrite IH. unfold subMeshCommand. cbn [snd]. now rewrite Hbuilt.
Qed.

Lemma blasInstanceLoop_spec frameCount blasInstances :
  blasInstanceLoop GetHash SKINNED_BLAS_REBUILD_FRAME_INTERVAL frameCount blasInstances =
  (flat_map (fun kv => fst (blasInstanceBody GetHash SKINNED_BLAS_REBUILD_FRAME_INTERVAL
                                             frameCount kv)) blasInstances,
   map (fun kv => snd (blasInstanceBody GetHash SKINNED_BLAS_REBUILD_FRAME_INTERVAL
                                        frameCount kv)) blasInstances).
Proof.
  induction blasInstances as [|kv rest IH]; [reflexivity|].
  cbn [blasInstanceLoop flat_map map]. rewrite IH.
  now destruct (blasInstanceBody _ _ frameCount kv).
Qed.

Lemma blasInstanceBody_bottomLevel frameCount kv :
  forallb isBottomLevelCommand
    (fst (blasInstanceBody GetHash SKINNED_BLAS_REBUILD_FRAME_INTERVAL frameCount kv)) = true.
Proof.
  unfold blasInstanceBody.
  destruct (_ || _); [|reflexivity].
  cbn [fst]. apply subMeshLoop_bottomLevel.
Qed.

Lemma blasInstanceLoop_bottomLevel frameCount blasInstances :
  forallb isBottomLevelCommand
    (fst (blasInstanceLoop GetHash SKINNED_BLAS_REBUILD_FRAME_INTERVAL
                           frameCount blasInstances)) = true.
Proof.
  rewrite blasInstanceLoop_spec. cbn [fst].
  induction blasInstances as [|kv rest IH]; [reflexivity|].
  cbn [flat_map]. rewrite forallb_app, IH, blasInstanceBody_bottomLevel. reflexivity.
Qed.

Lemma blasInstanceLoop_nth frameCount blasInstances n kv :
  nth_error blasInstances n = Some kv ->
  nth_error (snd (blasInstanceLoop GetHash SKINNED_BLAS_REBUILD_FRAME_INTERVAL
                                   frameCount blasInstances)) n =
  Some (snd (blasInstanceBody GetHash SKINNED_BLAS_REBUILD_FRAME_INTERVAL frameCount kv)).
Proof.
  intros Hn. rewrite blasInstanceLoop_spec. cbn [snd].
  now rewrite nth_error_map, Hn.
Qed.

Lemma blasInstanceLoop_split frameCount blasInstances n kv :
  nth_error blasInstances n = Some kv ->
  fst (blasInstanceLoop GetHash SKINNED_BLAS_REBUILD_FRAME_INTERVAL frameCount blasInstances) =
  fst (blasInstanceLoop GetHash SKINNED_BLAS_REBUILD_FRAME_INTERVAL frameCount
                        (firstn n blasInstances))
  ++ fst (blasInstanceBody GetHash SKINNED_BLAS_REBUILD_FRAME_INTERVAL frameCount kv)
  ++ fst (blasInstanceLoop GetHash SKINNED_BLAS_REBUILD_FRAME_INTERVAL frameCount
                           (skipn (S n) blasInstances)).
Proof.
  intros Hn. rewrite !blasInstanceLoop_spec. cbn [fst].
  destruct (nth_error_split _ _ Hn) as (l1 & l2 & -> & <-).
  rewrite firstn_app, firstn_all, Nat.sub_diag, firstn_O, app_nil_r.
  replace (skipn (S (length l1)) (l1 ++ kv :: l2)) with l2.
  - rewrite flat_map_app. cbn [flat_map]. reflexivity.
  - change (l1 ++ kv :: l2) with (l1 ++ [kv] ++ l2). rewrite app_assoc.
    rewrite skipn_app.
    replace (S (length l1)) with (length (l1 ++ [kv]))
      by (rewrite length_app; cbn; lia).
    now rewrite skipn_all, Nat.sub_diag.
Qed.

(** *** The two ways a frame can go *)

Lemma BuildCommandList_reaches this fp :
  reachesBlasLoop this fp = true ->
  BuildCommandList GetHash SKINNED_BLAS_REBUILD_FRAME_INTERVAL this (Some fp) =
  {| e_pass := {| m_rayTracingRevision := GetRevision fp;
                  m_frameCount := nextFrameCount (m_frameCount this) |};
     e_scene :=
       Some (set_BlasInstances
               (snd (blasInstanceLoop GetHash SKINNED_BLAS_REBUILD_FRAME_INTERVAL
                                      (m_frameCount this) (GetBlasInstances fp))) fp);
     e_commands :=
       fst (blasInstanceLoop GetHash SKINNED_BLAS_REBUILD_FRAME_INTERVAL
                             (m_frameCount this) (GetBlasInstances fp))
       ++ [BuildTopLevelAccelerationStructure (GetTlas fp)] |}.
Proof.
  unfold reachesBlasLoop, BuildCommandList.
  destruct (GetTlasBuffer (GetTlas fp)); [|discriminate].
  destruct (_ && (GetSkinnedMeshCount fp =? 0)); [discriminate|].
  destruct (GetSubMeshCount fp =? 0); [discriminate|].
  intros _. cbn [m_frameCount m_rayTracingRevision].
  now destruct (blasInstanceLoop _ _ (m_frameCount this) (GetBlasInstances fp)).
Qed.

Lemma BuildCommandList_returns_early this fp :
  reachesBlasLoop this fp = false ->
  e_commands (BuildCommandList GetHash SKINNED_BLAS_REBUILD_FRAME_INTERVAL this (Some fp)) = []
  /\ e_scene (BuildCommandList GetHash SKINNED_BLAS_REBUILD_FRAME_INTERVAL this (Some fp))
     = Some fp
  /\ m_frameCount
       (e_pass (BuildCommandList GetHash SKINNED_BLAS_REBUILD_FRAME_INTERVAL this (Some fp)))
     = m_frameCount this.
Proof.
  unfold reachesBlasLoop, BuildCommandList.
  destruct (GetTlasBuffer (GetTlas fp)); [|now cbn].
  destruct (_ && (GetSkinnedMeshCount fp =? 0)); [now cbn|].
  destruct (GetSubMeshCount fp =? 0); [now cbn|discriminate].
Qed.

(** *** Revision bookkeeping *)

(** C1 (amended). In a frame in which the feature processor is registered, the
    TLAS has a backing buffer and the observed revision differs from the
    stored one, the stored revision equals the observed revision after
    [BuildCommandList]; this holds whatever the sub-mesh count is, and with a
    sub-mesh count of zero no command is recorded. *)
Theorem BuildCommandList_commits_revision this fp buffer
  (Hbuffer : GetTlasBuffer (GetTlas fp) = Some buffer)
  (Hrevision : GetRevision fp <> m_rayTracingRevision this) :
  m_rayTracingRevision
    (e_pass (BuildCommandList GetHash SKINNED_BLAS_REBUILD_FRAME_INTERVAL this (Some fp)))
  = GetRevision fp
  /\ (GetSubMeshCount fp = 0 ->
      e_commands (BuildCommandList GetHash SKINNED_BLAS_REBUILD_FRAME_INTERVAL this (Some fp))
      = []).
Proof.
  unfold BuildCommandList. rewrite Hbuffer.
  apply Z.eqb_neq in Hrevision. rewrite Hrevision. cbn [andb].
  destruct (GetSubMeshCount fp =? 0) eqn:Hcount.
  - split; reflexivity.
  - destruct (blasInstanceLoop _ _ _ _). cbn [e_pass m_rayTracingRevision].
    split; [reflexivity|]. intros H0. rewrite H0 in Hcount. discriminate.
Qed.

(** C2. In a frame in which the observed revision equals the stored one and
    there is no skinned mesh, [BuildCommandList] records no command and
    returns the pass members and the feature processor as they were: stored
    revision, frame counter and every built flag keep their values. *)
Theorem BuildCommandList_up_to_date this fp
  (Hrevision : GetRevision fp = m_rayTracingRevision this)
  (Hskinned : GetSkinnedMeshCount fp = 0) :
  BuildCommandList GetHash SKINNED_BLAS_REBUILD_FRAME_INTERVAL this (Some fp) =
  {| e_pass := this; e_scene := Some fp; e_commands := [] |}.
Proof.
  unfold BuildCommandList.
  destruct (GetTlasBuffer (GetTlas fp)); [|reflexivity].
  rewrite Hrevision, Hskinned, Z.eqb_refl. reflexivity.
Qed.

(** *** Order of emission and the frame counter *)

(** C7. Every call of [BuildCommandList] goes one of two ways. Either it
    records nothing and the frame counter keeps its value; or it records the
    bottom-level commands of the instance loop, computed with the frame
    counter as it was on entry, then exactly one top-level build as the last
    command, and the frame counter is incremented by one. *)
Theorem BuildCommandList_emission_order this scene :
  (e_commands (BuildCommandList GetHash SKINNED_BLAS_REBUILD_FRAME_INTERVAL this scene) = []
   /\ m_frameCount
        (e_pass (BuildCommandList GetHash SKINNED_BLAS_REBUILD_FRAME_INTERVAL this scene))
      = m_frameCount this)
  \/
  (exists fp blasCommands,
      scene = Some fp
      /\ blasCommands =
         fst (blasInstanceLoop GetHash SKINNED_BLAS_REBUILD_FRAME_INTERVAL
                               (m_frameCount this) (GetBlasInstances fp))
      /\ e_commands (BuildCommandList GetHash SKINNED_BLAS_REBUILD_FRAME_INTERVAL this scene)
         = blasCommands ++ [BuildTopLevelAccelerationStructure (GetTlas fp)]
      /\ forallb isBottomLevelCommand blasCommands = true
      /\ m_frameCount
           (e_pass (BuildCommandList GetHash SKINNED_BLAS_REBUILD_FRAME_INTERVAL this scene))
         = wrap32 (m_frameCount this + 1)).
Proof.
  destruct scene as [fp|]; [|left; split; reflexivity].
  destruct (reachesBlasLoop this fp) eqn:Hreach.
  - right. exists fp. eexists. split; [reflexivity|]. split; [reflexivity|].
    rewrite (BuildCommandList_reaches _ _ Hreach). cbn [e_commands e_pass m_frameCount].
    split; [reflexivity|]. split; [apply blasInstanceLoop_bottomLevel|reflexivity].
  - left. destruct (BuildCommandList_returns_early _ _ Hreach) as (Hc & _ & Hf).
    split; assumption.
Qed.

(** *** The built flag of a BLAS instance *)

Lemma blasInstanceBody_notBuilt frameCount key inst :
  m_blasBuilt inst = false ->
  blasInstanceBody GetHash SKINNED_BLAS_REBUILD_FRAME_INTERVAL frameCount (key, inst) =
  (map (fun s => BuildBottomLevelAccelerationStructure (BlasInstance.m_blas s))
       (m_subMeshes inst),
   (key, set_blasBuilt true inst)).
Proof.
  intros Hbuilt. unfold blasInstanceBody. cbn [fst snd]. rewrite Hbuilt. cbn [Bool.eqb orb].
  now rewrite subMeshLoop_notBuilt.
Qed.

Lemma blasInstanceBody_static frameCount key inst :
  m_blasBuilt inst = true -> m_isSkinnedMesh inst = false ->
  blasInstanceBody GetHash SKINNED_BLAS_REBUILD_FRAME_INTERVAL frameCount (key, inst) =
  ([], (key, inst)).
Proof.
  intros Hbuilt Hskinned. unfold blasInstanceBody. cbn [fst snd].
  now rewrite Hbuilt, Hskinned.
Qed.

Lemma blasInstanceBody_entry frameCount key inst :
  exists inst',
    snd (blasInstanceBody GetHash SKINNED_BLAS_REBUILD_FRAME_INTERVAL frameCount (key, inst))
    = (key, inst')
    /\ (inst' = inst \/ inst' = set_blasBuilt true inst)
    /\ (m_blasBuilt inst = true -> m_blasBuilt inst' = true)
    /\ (m_blasBuilt inst = false -> m_blasBuilt inst' = true).
Proof.
  unfold blasInstanceBody. cbn [fst snd].
  destruct (m_blasBuilt inst) eqn:Hbuilt, (m_isSkinnedMesh inst) eqn:Hskinned;
    cbn [Bool.eqb orb snd]; eexists; (split; [reflexivity|]); cbn; auto.
Qed.

(** C4. Take the BLAS instance at any position of the map and one call of
    [BuildCommandList]. After the call the entry is at the same position under
    the same key, and:
    - a built flag that was set stays set (so the flag is raised at most once);
    - a frame that returns before the instance loop leaves the instance as it
      was and records nothing;
    - a frame that reaches the instance loop leaves the flag set. The commands
      of the frame are those of the instances before it, its own, those of the
      instances after it and the top-level build. When its flag was not set,
      its own commands are one full build per sub-mesh, in order, whether or
      not it is skinned; when its flag was set and it is not skinned, it has
      no commands and is left unchanged. *)
Theorem blasInstance_built_once this fp n key inst
  (Hn : nth_error (GetBlasInstances fp) n = Some (key, inst)) :
  exists fp' inst',
    e_scene (BuildCommandList GetHash SKINNED_BLAS_REBUILD_FRAME_INTERVAL this (Some fp))
    = Some fp'
    /\ nth_error (GetBlasInstances fp') n = Some (key, inst')
    /\ (m_blasBuilt inst = true -> m_blasBuilt inst' = true)
    /\ (reachesBlasLoop this fp = false ->
        inst' = inst
        /\ e_commands
             (BuildCommandList GetHash SKINNED_BLAS_REBUILD_FRAME_INTERVAL this (Some fp)) = [])
    /\ (reachesBlasLoop this fp = true ->
        m_blasBuilt inst' = true
        /\ e_commands
             (BuildCommandList GetHash SKINNED_BLAS_REBUILD_FRAME_INTERVAL this (Some fp))
           = fst (blasInstanceLoop GetHash SKINNED_BLAS_REBUILD_FRAME_INTERVAL
                                   (m_frameCount this) (firstn n (GetBlasInstances fp)))
             ++ fst (blasInstanceBody GetHash SKINNED_BLAS_REBUILD_FRAME_INTERVAL
                                      (m_frameCount this) (key, inst))
             ++ fst (blasInstanceLoop GetHash SKINNED_BLAS_REBUILD_FRAME_INTERVAL
                                      (m_frameCount this) (skipn (S n) (GetBlasInstances fp)))
             ++ [BuildTopLevelAccelerationStructure (GetTlas fp)]
        /\ (m_blasBuilt inst = false ->
            fst (blasInstanceBody GetHash SKINNED_BLAS_REBUILD_FRAME_INTERVAL
                                  (m_frameCount this) (key, inst))
            = map (fun s => BuildBottomLevelAccelerationStructure (BlasInstance.m_blas s))
                  (m_subMeshes inst))
        /\ (m_blasBuilt inst = true -> m_isSkinnedMesh inst = false ->
            fst (blasInstanceBody GetHash SKINNED_BLAS_REBUILD_FRAME_INTERVAL
                                  (m_frameCount this) (key, inst)) = []
            /\ inst' = inst)).
Proof.
  destruct (reachesBlasLoop this fp) eqn:Hreach.
  - destruct (blasInstanceBody_entry (m_frameCount this) key inst)
      as (inst' & Hsnd & _ & Hkeep & Hraise).
    rewrite (BuildCommandList_reaches _ _ Hreach). cbn [e_scene e_commands].
    eexists; exists inst'. split; [reflexivity|].
    cbn [GetBlasInstances set_BlasInstances].
    split; [rewrite (blasInstanceLoop_nth _ _ _ _ Hn); now rewrite Hsnd|].
    split; [exact Hkeep|]. split; [discriminate|]. intros _.
    split; [destruct (m_blasBuilt inst); auto|].
    split; [rewrite (blasInstanceLoop_split _ _ _ _ Hn); now rewrite <- !app_assoc|].
    split.
    + intros Hbuilt. now rewrite blasInstanceBody_notBuilt.
    + intros Hbuilt Hskinned.
      rewrite blasInstanceBody_static in Hsnd |- * by assumption.
      cbn [fst snd] in *. split; [reflexivity|congruence].
  - destruct (BuildCommandList_returns_early _ _ Hreach) as (Hc & Hs & _).
    exists fp, inst. rewrite Hs, Hc. repeat split; auto; discriminate.
Qed.

(** C10. Take a BLAS instance with an empty sub-mesh sequence whose built flag
    is not set, in a frame that reaches the instance loop. The commands of the
    frame are those of the other instances and the top-level build: none is
    recorded for it. After the frame the map holds, at the same position and
    under the same key, an instance whose built flag is set, with the same
    (empty) sub-meshes and the same skinned flag. When it is not skinned, every
    later frame skips it: the test of line 168 fails for an instance with
    these flags whatever its sub-meshes are, so on any later call, with the
    instance at any position of the map, the frame records no command for it
    and leaves it as it is. *)
Theorem empty_blasInstance_marked_built this fp n key inst
  (Hn : nth_error (GetBlasInstances fp) n = Some (key, inst))
  (Hempty : m_subMeshes inst = [])
  (Hbuilt : m_blasBuilt inst = false)
  (Hreach : reachesBlasLoop this fp = true) :
  fst (blasInstanceBody GetHash SKINNED_BLAS_REBUILD_FRAME_INTERVAL
                        (m_frameCount this) (key, inst)) = []
  /\ e_commands (BuildCommandList GetHash SKINNED_BLAS_REBUILD_FRAME_INTERVAL this (Some fp))
     = fst (blasInstanceLoop GetHash SKINNED_BLAS_REBUILD_FRAME_INTERVAL
                             (m_frameCount this) (firstn n (GetBlasInstances fp)))
       ++ fst (blasInstanceLoop GetHash SKINNED_BLAS_REBUILD_FRAME_INTERVAL
                                (m_frameCount this) (skipn (S n) (GetBlasInstances fp)))
       ++ [BuildTopLevelAccelerationStructure (GetTlas fp)]
  /\ exists fp' inst',
      e_scene (BuildCommandList GetHash SKINNED_BLAS_REBUILD_FRAME_INTERVAL this (Some fp))
      = Some fp'
      /\ nth_error (GetBlasInstances fp') n = Some (key, inst')
      /\ m_blasBuilt inst' = true
      /\ m_subMeshes inst' = []
      /\ m_isSkinnedMesh inst' = m_isSkinnedMesh inst
      /\ (m_isSkinnedMesh inst = false ->
          (forall frameCount subMeshes,
              blasInstanceBody GetHash SKINNED_BLAS_REBUILD_FRAME_INTERVAL frameCount
                (key, {| m_subMeshes := subMeshes;
                         m_blasBuilt := m_blasBuilt inst';
                         m_isSkinnedMesh := m_isSkinnedMesh inst' |})
              = ([], (key, {| m_subMeshes := subMeshes;
                              m_blasBuilt := m_blasBuilt inst';
                              m_isSkinnedMesh := m_isSkinnedMesh inst' |})))
          /\ forall this2 fp2 m,
              nth_error (GetBlasInstances fp2) m = Some (key, inst') ->
              (exists fp2',
                  e_scene (BuildCommandList GetHash SKINNED_BLAS_REBUILD_FRAME_INTERVAL
                                            this2 (Some fp2)) = Some fp2'
                  /\ nth_error (GetBlasInstances fp2') m = Some (key, inst'))
              /\ (reachesBlasLoop this2 fp2 = true ->
                  e_commands (BuildCommandList GetHash SKINNED_BLAS_REBUILD_FRAME_INTERVAL
                                               this2 (Some fp2))
                  = fst (blasInstanceLoop GetHash SKINNED_BLAS_REBUILD_FRAME_INTERVAL
                           (m_frameCount this2) (firstn m (GetBlasInstances fp2)))
                    ++ fst (blasInstanceLoop GetHash SKINNED_BLAS_REBUILD_FRAME_INTERVAL
                              (m_frameCount this2) (skipn (S m) (GetBlasInstances fp2)))
                    ++ [BuildTopLevelAccelerationStructure (GetTlas fp2)])
              /\ (reachesBlasLoop this2 fp2 = false ->
                  e_commands (BuildCommandList GetHash SKINNED_BLAS_REBUILD_FRAME_INTERVAL
                                               this2 (Some fp2)) = [])).
Proof.
  assert (Hbody : blasInstanceBody GetHash SKINNED_BLAS_REBUILD_FRAME_INTERVAL
                                   (m_frameCount this) (key, inst)
                  = ([], (key, set_blasBuilt true inst))).
  { rewrite blasInstanceBody_notBuilt by assumption. now rewrite Hempty. }
  rewrite (BuildCommandList_reaches _ _ Hreach). cbn [e_scene e_commands].
  split; [now rewrite Hbody|].
  split.
  { rewrite (blasInstanceLoop_split _ _ _ _ Hn), Hbody. cbn [fst app].
    now rewrite <- app_assoc. }
  eexists. exists (set_blasBuilt true inst).
  split; [reflexivity|]. cbn [GetBlasInstances set_BlasInstances].
  split; [rewrite (blasInstanceLoop_nth _ _ _ _ Hn); now rewrite Hbody|].
  split; [reflexivity|]. split; [exact Hempty|]. split; [reflexivity|].
  intros Hskinned.
  assert (Hflag : m_blasBuilt (set_blasBuilt true inst) = true) by reflexivity.
  assert (Hstatic : m_isSkinnedMesh (set_blasBuilt true inst) = false) by exact Hskinned.
  split.
  { intros frameCount subMeshes. apply blasInstanceBody_static; cbn; assumption. }
  intros this2 fp2 m Hm.
  assert (Hlater : blasInstanceBody GetHash SKINNED_BLAS_REBUILD_FRAME_INTERVAL
                                    (m_frameCount this2) (key, set_blasBuilt true inst)
                   = ([], (key, set_blasBuilt true inst)))
    by (now apply blasInstanceBody_static).
  destruct (reachesBlasLoop this2 fp2) eqn:Hreach2.
  - rewrite (BuildCommandList_reaches _ _ Hreach2). cbn [e_scene e_commands].
    split; [|split; [|discriminate]].
    + eexists. split; [reflexivity|]. cbn [GetBlasInstances set_BlasInstances].
      rewrite (blasInstanceLoop_nth _ _ _ _ Hm). now rewrite Hlater.
    + intros _. rewrite (blasInstanceLoop_split _ _ _ _ Hm), Hlater. cbn [fst app].
      now rewrite <- app_assoc.
  - destruct (BuildCommandList_returns_early _ _ Hreach2) as (Hc & Hs & _).
    split; [|split; [discriminate|]].
    + exists fp2. split; assumption.
    + intros _. exact Hc.
Qed.

(** *** The rebuild rule of skinned meshes *)

Lemma wrap64_add_mod n x y :
  0 < n -> (n | 2 ^ 64) -> (wrap64 x + y) mod n = (x + y) mod n.
Proof.
  intros Hpos Hdiv. unfold wrap64.
  rewrite <- (Z.add_mod_idemp_l (x mod 2 ^ 64)) by lia.
  rewrite Z.mod_mod_divide by assumption.
  now rewrite Z.add_mod_idemp_l by lia.
Qed.

Lemma rebuildKey_integers assetGuid submeshIndex frameCount :
  0 < SKINNED_BLAS_REBUILD_FRAME_INTERVAL ->
  (SKINNED_BLAS_REBUILD_FRAME_INTERVAL | 2 ^ 64) ->
  rebuildKey SKINNED_BLAS_REBUILD_FRAME_INTERVAL assetGuid submeshIndex frameCount =
  (assetGuid + submeshIndex + frameCount) mod SKINNED_BLAS_REBUILD_FRAME_INTERVAL.
Proof.
  intros Hpos Hdiv. unfold rebuildKey.
  unfold wrap64 at 1. rewrite Z.mod_mod_divide by assumption.
  rewrite wrap64_add_mod by assumption.
  rewrite <- Z.add_assoc, wrap64_add_mod by assumption.
  now rewrite Z.add_assoc.
Qed.

Lemma subMeshCommand_skinned key inst frameCount submeshIndex s :
  m_blasBuilt inst = true -> m_isSkinnedMesh inst = true ->
  subMeshCommand GetHash SKINNED_BLAS_REBUILD_FRAME_INTERVAL
                 (key, inst) frameCount submeshIndex s =
  if rebuildKey SKINNED_BLAS_REBUILD_FRAME_INTERVAL
                (GetHash (m_guid key)) submeshIndex frameCount =? 0
  then BuildBottomLevelAccelerationStructure (BlasInstance.m_blas s)
  else UpdateBottomLevelAccelerationStructure (BlasInstance.m_blas s).
Proof.
  intros Hbuilt Hskinned. unfold subMeshCommand. cbn [fst snd].
  rewrite Hbuilt, Hskinned. cbn [Bool.eqb andb].
  now destruct (rebuildKey _ _ _ _ =? 0).
Qed.

(** C5. For a built, skinned instance, the command recorded for the sub-mesh
    at index [n] is a full build when the key of line 185 is 0 and an update
    otherwise; the key depends on nothing but the hash of the asset GUID, the
    index, the frame counter and the interval. For every positive interval
    that divides 2^64 (every power of two a 64-bit constant can hold), the
    64-bit wrap-around of the sum does not show and the choice is the
    specification's [(hash + index + frameCounter) mod REBUILD_INTERVAL == 0]
    over the integers. *)
Theorem skinned_rebuild_decision key inst frameCount n s
  (Hbuilt : m_blasBuilt inst = true)
  (Hskinned : m_isSkinnedMesh inst = true)
  (Hn : nth_error (m_subMeshes inst) n = Some s) :
  nth_error (fst (blasInstanceBody GetHash SKINNED_BLAS_REBUILD_FRAME_INTERVAL
                                   frameCount (key, inst))) n
  = Some (if rebuildKey SKINNED_BLAS_REBUILD_FRAME_INTERVAL
                        (GetHash (m_guid key)) (Z.of_nat n) frameCount =? 0
          then BuildBottomLevelAccelerationStructure (BlasInstance.m_blas s)
          else UpdateBottomLevelAccelerationStructure (BlasInstance.m_blas s))
  /\ (0 < SKINNED_BLAS_REBUILD_FRAME_INTERVAL ->
      (SKINNED_BLAS_REBUILD_FRAME_INTERVAL | 2 ^ 64) ->
      (rebuildKey SKINNED_BLAS_REBUILD_FRAME_INTERVAL
                  (GetHash (m_guid key)) (Z.of_nat n) frameCount =? 0)
      = spec_fullRebuild (GetHash (m_guid key)) (Z.of_nat n) frameCount
                         SKINNED_BLAS_REBUILD_FRAME_INTERVAL).
Proof.
  split.
  - unfold blasInstanceBody. cbn [fst snd]. rewrite Hbuilt, Hskinned. cbn [Bool.eqb orb fst].
    rewrite (subMeshLoop_nth _ _ _ _ _ _ Hn). cbn [Z.add].
    now rewrite subMeshCommand_skinned.
  - intros Hpos Hdiv. unfold spec_fullRebuild. now rewrite rebuildKey_integers.
Qed.

(** *** One full rebuild per interval *)

Lemma frameCountAfter_wrap32 frames frameCount :
  wrap32 (frameCountAfter frames frameCount) = wrap32 (frameCount + Z.of_nat frames).
Proof.
  induction frames as [|frames IH].
  - cbn. now rewrite Z.add_0_r.
  - change (frameCountAfter (S frames) frameCount)
      with (nextFrameCount (frameCountAfter frames frameCount)).
    unfold nextFrameCount. rewrite <- wrap32_succ, IH, wrap32_succ.
    unfold wrap32. rewrite Z.mod_mod by lia. f_equal. lia.
Qed.

Lemma rebuildKey_frameCountAfter assetGuid submeshIndex frameCount frames :
  0 < SKINNED_BLAS_REBUILD_FRAME_INTERVAL ->
  (SKINNED_BLAS_REBUILD_FRAME_INTERVAL | 2 ^ 32) ->
  rebuildKey SKINNED_BLAS_REBUILD_FRAME_INTERVAL assetGuid submeshIndex
             (frameCountAfter frames frameCount) =
  (assetGuid + submeshIndex + frameCount + Z.of_nat frames)
    mod SKINNED_BLAS_REBUILD_FRAME_INTERVAL.
Proof.
  intros Hpos Hdiv.
  assert (Hdiv64 : (SKINNED_BLAS_REBUILD_FRAME_INTERVAL | 2 ^ 64)).
  { apply Z.divide_trans with (2 ^ 32); [assumption|]. exists (2 ^ 32). reflexivity. }
  rewrite rebuildKey_integers by assumption.
  rewrite <- Z.add_mod_idemp_r by lia.
  rewrite <- (Z.mod_mod_divide (frameCountAfter frames frameCount) (2 ^ 32)) by assumption.
  fold (wrap32 (frameCountAfter frames frameCount)).
  rewrite frameCountAfter_wrap32. unfold wrap32.
  rewrite Z.mod_mod_divide by assumption.
  rewrite Z.add_mod_idemp_r by lia. f_equal. lia.
Qed.

Lemma filter_none {A} (p : A -> bool) l :
  (forall x, In x l -> p x = false) -> filter p l = [].
Proof.
  induction l as [|x l IH]; intros Hp; [reflexivity|].
  cbn. rewrite (Hp x) by now left. apply IH. intros y Hy. apply Hp. now right.
Qed.

Lemma filter_unique {A} (p : A -> bool) l x0 :
  NoDup l -> In x0 l ->
  (forall x, In x l -> (p x = true <-> x = x0)) ->
  filter p l = [x0].
Proof.
  induction l as [|x l IH]; intros Hnd Hin Hp; [contradiction|].
  inversion Hnd as [|? ? Hnotin Hnd']; subst. cbn [filter].
  destruct (p x) eqn:Hpx.
  - apply (Hp x (or_introl eq_refl)) in Hpx. subst x. f_equal.
    apply filter_none. intros y Hy.
    destruct (p y) eqn:Hpy; [|reflexivity].
    apply (Hp y (or_intror Hy)) in Hpy. subst y. contradiction.
  - destruct Hin as [->|Hin].
    + assert (p x0 = true) by (now apply Hp; [left|]). congruence.
    + apply IH; [assumption..|]. intros y Hy. apply Hp. now right.
Qed.

Lemma zero_residue_unique a n j :
  0 < n -> 0 <= j < n -> ((a + j) mod n = 0 <-> j = (- a) mod n).
Proof.
  intros Hpos Hj. split.
  - intros H0. apply Z.mod_divide in H0; [|lia]. destruct H0 as [k Hk].
    replace (- a) with (j + (- k) * n) by lia.
    rewrite Z.mod_add by lia. now rewrite Z.mod_small.
  - intros ->. rewrite Z.add_mod_idemp_r by lia.
    replace (a + - a) with 0 by lia. now apply Z.mod_0_l; lia.
Qed.

Lemma one_zero_residue a n :
  0 < n ->
  filter (fun j => (a + Z.of_nat j) mod n =? 0) (seq 0 (Z.to_nat n)) =
  [Z.to_nat ((- a) mod n)].
Proof.
  intros Hpos.
  assert (Hr : 0 <= (- a) mod n < n) by (apply Z.mod_pos_bound; lia).
  apply filter_unique.
  - apply seq_NoDup.
  - apply in_seq. lia.
  - intros j Hj. apply in_seq in Hj. rewrite Z.eqb_eq.
    rewrite zero_residue_unique by lia. lia.
Qed.

(** C6. For a built, skinned instance and a fixed sub-mesh index, and for
    every positive interval that divides 2^32 (so that the 32-bit frame
    counter wraps on a multiple of it): among any
    [SKINNED_BLAS_REBUILD_FRAME_INTERVAL] consecutive values of the frame
    counter, exactly one selects the full build and the other
    [SKINNED_BLAS_REBUILD_FRAME_INTERVAL - 1] select the update. *)
Theorem one_full_rebuild_per_interval key inst frameCount submeshIndex s
  (Hpos : 0 < SKINNED_BLAS_REBUILD_FRAME_INTERVAL)
  (Hdiv : (SKINNED_BLAS_REBUILD_FRAME_INTERVAL | 2 ^ 32))
  (Hbuilt : m_blasBuilt inst = true)
  (Hskinned : m_isSkinnedMesh inst = true) :
  length
    (filter (fun frames =>
               isBottomLevelBuild
                 (subMeshCommand GetHash SKINNED_BLAS_REBUILD_FRAME_INTERVAL (key, inst)
                                 (frameCountAfter frames frameCount) submeshIndex s))
            (seq 0 (Z.to_nat SKINNED_BLAS_REBUILD_FRAME_INTERVAL))) = 1%nat
  /\ length
       (filter (fun frames =>
                  isBottomLevelUpdate
                    (subMeshCommand GetHash SKINNED_BLAS_REBUILD_FRAME_INTERVAL (key, inst)
                                    (frameCountAfter frames frameCount) submeshIndex s))
               (seq 0 (Z.to_nat SKINNED_BLAS_REBUILD_FRAME_INTERVAL)))
     = (Z.to_nat SKINNED_BLAS_REBUILD_FRAME_INTERVAL - 1)%nat.
Proof.
  set (l := seq 0 (Z.to_nat SKINNED_BLAS_REBUILD_FRAME_INTERVAL)).
  set (a := GetHash (m_guid key) + submeshIndex + frameCount).
  set (zero := fun frames : nat =>
                 (a + Z.of_nat frames) mod SKINNED_BLAS_REBUILD_FRAME_INTERVAL =? 0).
  assert (Hbuild : length (filter zero l) = 1%nat)
    by (unfold zero, l; now rewrite one_zero_residue).
  assert (Hcmd : forall frames,
             subMeshCommand GetHash SKINNED_BLAS_REBUILD_FRAME_INTERVAL (key, inst)
                            (frameCountAfter frames frameCount) submeshIndex s
             = if zero frames
               then BuildBottomLevelAccelerationStructure (BlasInstance.m_blas s)
               else UpdateBottomLevelAccelerationStructure (BlasInstance.m_blas s)).
  { intros frames. rewrite subMeshCommand_skinned by assumption.
    now rewrite rebuildKey_frameCountAfter by assumption. }
  split.
  - rewrite <- Hbuild. f_equal. apply filter_ext. intros frames.
    rewrite Hcmd. now destruct (zero frames).
  - assert (Hlen : length l = Z.to_nat SKINNED_BLAS_REBUILD_FRAME_INTERVAL)
      by apply length_seq.
    pose proof (filter_length zero l) as Hsum.
    replace (filter _ l) with (filter (fun x => negb (zero x)) l).
    + lia.
    + apply filter_ext. intros frames. rewrite Hcmd. now destruct (zero frames).
Qed.

End Scheduling.

(** ** Dependency declaration *)

Lemma bind_trace {A B} (m : Traced A) (k : A -> Traced B) :
  fst (bind m k) =
  fst m ++ match snd m with
           | Returned a => fst (k a)
           | _ => []
           end.
Proof.
  destruct m as [trace [a| |]]; cbn; [|now rewrite app_nil_r..].
  now destruct (k a).
Qed.

Lemma bind_outcome {A B} (m : Traced A) (k : A -> Traced B) :
  snd (bind m k) =
  match snd m with
  | Returned a => snd (k a)
  | AssertFailed message result => AssertFailed message result
  | NullDereference => NullDereference
  end.
Proof.
  destruct m as [trace [a| |]]; cbn; [|reflexivity..].
  now destruct (k a).
Qed.


(** Lines 92-112, case by case. *)
Lemma attachTlasBuffer_cases frameGraph fp buffer count :
  attachTlasBuffer frameGraph fp buffer count =
  match buffer with
  | None => ([], Returned tt)
  | Some b =>
      if count =? 0 then ([], Returned tt)
      else if IsAttachmentValid frameGraph (GetTlasAttachmentId fp)
           then ([tlasWriteDependency fp b], Returned tt)
           else if RHI.ResultCode_eqb
                     (ImportBuffer frameGraph (GetTlasAttachmentId fp) b) RHI.Success
                then ([EvImportBuffer (GetTlasAttachmentId fp) b; tlasWriteDependency fp b],
                      Returned tt)
                else ([EvImportBuffer (GetTlasAttachmentId fp) b],
                      AssertFailed "Failed to import ray tracing TLAS buffer with error %d"
                                   (ImportBuffer frameGraph (GetTlasAttachmentId fp) b))
  end.
Proof.
  unfold attachTlasBuffer. destruct buffer as [b|]; [|reflexivity].
  destruct (count =? 0); [reflexivity|]. cbn [negb].
  destruct (IsAttachmentValid frameGraph (GetTlasAttachmentId fp)); cbn [Bool.eqb];
    [reflexivity|].
  unfold AZ_Assert.
  destruct (RHI.ResultCode_eqb _ RHI.Success); reflexivity.
Qed.

(** Lines 115-123, case by case. *)
Lemma attachSkinningOutput_cases env :
  attachSkinningOutput env =
  match FindAdjacentPass env "SkinningPass" with
  | None => ([EvFindAdjacentPass "SkinningPass"], NullDereference)
  | Some skinningPass =>
      match FindAttachmentBinding skinningPass "SkinnedMeshOutputStream" with
      | None => ([EvFindAdjacentPass "SkinningPass";
                  EvFindAttachmentBinding "SkinnedMeshOutputStream"], NullDereference)
      | Some binding =>
          (skinningReadDependency binding,
           if RHI.ResultCode_eqb
                (UseShaderAttachment (frameGraph env)
                                     (GetAsBuffer (m_unifiedScopeDesc binding)) RHI.Read)
                RHI.Success
           then Returned tt
           else AssertFailed "Failed to attach SkinnedMeshOutputStream buffer with error %d"
                             (UseShaderAttachment (frameGraph env)
                                (GetAsBuffer (m_unifiedScopeDesc binding)) RHI.Read))
      end
  end.
Proof.
  unfold attachSkinningOutput, AZ_Assert, skinningReadDependency.
  destruct (FindAdjacentPass env "SkinningPass") as [skinningPass|]; [|reflexivity].
  cbn. destruct (FindAttachmentBinding skinningPass "SkinnedMeshOutputStream");
    [|reflexivity].
  cbn. destruct (RHI.ResultCode_eqb _ RHI.Success); reflexivity.
Qed.





Lemma rebuildTlas_outcome env fp :
  snd (rebuildTlas env fp) =
  Returned (set_Tlas (CreateBuffers env (GetTlas fp) (createTlasDescriptor (GetSubMeshes fp)))
                     fp)
  \/ exists message result, snd (rebuildTlas env fp) = AssertFailed message result.
Proof.
  unfold rebuildTlas. rewrite bind_outcome. cbn [call snd].
  rewrite bind_outcome, attachTlasBuffer_cases.
  destruct (GetTlasBuffer _) as [b|]; [|now left].
  destruct (GetSubMeshCount fp =? 0); [now left|].
  destruct (IsAttachmentValid _ _); [now left|].
  destruct (RHI.ResultCode_eqb _ _); [now left|].
  right. cbn [snd]. eauto.
Qed.

(** The end of a call once the TLAS work has returned and both lookups have
    succeeded: case analysis on the result of the read declaration. *)
Ltac skinning_tail Hpass Hbinding :=
  rewrite bind_trace, bind_outcome, attachSkinningOutput_cases, Hpass, Hbinding;
  cbn [fst snd];
  match goal with
  | |- context [RHI.ResultCode_eqb ?result RHI.Success] =>
      destruct result eqn:?; cbn [RHI.ResultCode_eqb]
  end;
  eexists; (split; [reflexivity|]); split; intros ?;
  try discriminate; try contradiction; cbn; eauto.

(** C8 (amended). In a call of [SetupFrameGraphDependencies] with a feature
    processor that reports at least one skinned mesh, in which the pass named
    "SkinningPass" and its binding "SkinnedMeshOutputStream" are found and
    which the assertion on the TLAS import has not ended: whether or not the
    revision changed, the calls are those of the TLAS work (none when the
    revision did not change), then the lookup of the pass by that name, the
    lookup of the binding by that name and the declaration of a read
    dependency on the buffer of the binding. When the declaration reports
    success the SRG update follows and the call returns; when it reports
    anything else the assertion fires with its diagnostic and the call ends
    there. *)
Theorem skinning_output_attached this env fp skinningPass binding
  (Hskinned : GetSkinnedMeshCount fp > 0)
  (Hpass : FindAdjacentPass env "SkinningPass" = Some skinningPass)
  (Hbinding : FindAttachmentBinding skinningPass "SkinnedMeshOutputStream" = Some binding)
  (Htlas : forall message result,
      snd (tlasCalls this env fp) <> AssertFailed message result) :
  exists after,
    fst (SetupFrameGraphDependencies this env (Some fp)) =
    (if GetRevision fp =? m_rayTracingRevision this then []
     else fst (rebuildTlas env fp))
    ++ skinningReadDependency binding ++ after
    /\ (UseShaderAttachment (frameGraph env) (GetAsBuffer (m_unifiedScopeDesc binding))
                            RHI.Read = RHI.Success ->
        after = [EvUpdateRayTracingSrgs]
        /\ exists fp', snd (SetupFrameGraphDependencies this env (Some fp))
                       = Returned (Some fp'))
    /\ (UseShaderAttachment (frameGraph env) (GetAsBuffer (m_unifiedScopeDesc binding))
                            RHI.Read <> RHI.Success ->
        after = []
        /\ snd (SetupFrameGraphDependencies this env (Some fp)) =
           AssertFailed "Failed to attach SkinnedMeshOutputStream buffer with error %d"
                        (UseShaderAttachment (frameGraph env)
                           (GetAsBuffer (m_unifiedScopeDesc binding)) RHI.Read)).
Proof.
  assert (Hgt : (GetSkinnedMeshCount fp >? 0) = true) by (apply Z.gtb_lt; lia).
  unfold tlasCalls in Htlas. unfold SetupFrameGraphDependencies.
  rewrite bind_trace, bind_outcome.
  destruct (GetRevision fp =? m_rayTracingRevision this); cbn [negb] in *.
  - cbn [ret fst snd app]. rewrite Hgt. skinning_tail Hpass Hbinding.
  - destruct (rebuildTlas_outcome env fp) as [Hreturned|(message & result & Hfailed)];
      [|now contradiction (Htlas message result)].
    rewrite Hreturned. cbn [GetSkinnedMeshCount set_Tlas].
    rewrite Hgt. skinning_tail Hpass Hbinding.
Qed.

(** * The properties on the small scene *)

Import Scenario.

(** ** The scenarios of the specification *)

(** Three static sub-meshes, first frame: three bottom-level builds, then one
    top-level build; the flag is set and both counters advance. *)
Example first_frame_builds_everything :
  BuildCommandList sampleHash 8 pass (Some staticFeatureProcessor) =
  {| e_pass := {| m_rayTracingRevision := 1; m_frameCount := 1 |};
     e_scene :=
       Some (set_BlasInstances [(staticKey, set_blasBuilt true staticInstance)]
                               staticFeatureProcessor);
     e_commands := [BuildBottomLevelAccelerationStructure 101;
                    BuildBottomLevelAccelerationStructure 102;
                    BuildBottomLevelAccelerationStructure 103;
                    BuildTopLevelAccelerationStructure tlas] |}.
Proof. reflexivity. Qed.

(** Same scene, second frame, revision unchanged: nothing is recorded. *)
Example second_frame_records_nothing :
  e_commands
    (BuildCommandList sampleHash 8 {| m_rayTracingRevision := 1; m_frameCount := 1 |}
       (Some (set_BlasInstances [(staticKey, set_blasBuilt true staticInstance)]
                                staticFeatureProcessor))) = [].
Proof. reflexivity. Qed.

(** A skinned mesh with interval 4: the hash of its GUID is 0 modulo 4, so
    its first sub-mesh is rebuilt at frame counter 4 and updated at 5, 6, 7. *)
Example skinned_rebuild_every_fourth_frame :
  map (fun frameCount =>
         subMeshCommand sampleHash 4 (skinnedKey, skinnedInstance) frameCount 0
                        {| BlasInstance.m_blas := 201 |})
      [4; 5; 6; 7] =
  [BuildBottomLevelAccelerationStructure 201;
   UpdateBottomLevelAccelerationStructure 201;
   UpdateBottomLevelAccelerationStructure 201;
   UpdateBottomLevelAccelerationStructure 201].
Proof. reflexivity. Qed.

(** No feature processor: nothing is recorded and nothing changes. *)
Example no_feature_processor :
  BuildCommandList sampleHash 8 pass None =
  {| e_pass := pass; e_scene := None; e_commands := [] |}.
Proof. reflexivity. Qed.

(** The instance IDs of the three sub-meshes and their transparency. *)
Example three_instances :
  map (fun i => (i_instanceID i, i_blas i, i_transparent i))
      (m_instances (createTlasDescriptor subMeshes)) =
  [(0, 101, false); (1, 102, true); (2, 103, false)].
Proof. reflexivity. Qed.

(** Dependency declaration for the whole scene: the TLAS is created, imported
    and attached for writing, the skinning output is attached for reading,
    the SRGs are updated. *)
Example setup_declares_everything :
  fst (SetupFrameGraphDependencies pass pipeline (Some featureProcessor)) =
  [EvCreateBuffers (createTlasDescriptor subMeshes);
   EvImportBuffer "RayTracingTlasAttachmentId"%string
                  {| RHI.buffer_id := 7; RHI.m_byteCount := 192 |};
   tlasWriteDependency featureProcessor {| RHI.buffer_id := 7; RHI.m_byteCount := 192 |};
   EvFindAdjacentPass "SkinningPass";
   EvFindAttachmentBinding "SkinnedMeshOutputStream";
   EvUseShaderAttachment (GetAsBuffer (m_unifiedScopeDesc skinnedMeshOutputStream)) RHI.Read;
   EvUpdateRayTracingSrgs].
Proof. reflexivity. Qed.

(** ** C1 *)

(** C1, as stated, fails: the revision changed (1 against a stored 0) and the
    sub-mesh count is zero, but the TLAS has no buffer, so [BuildCommandList]
    returns at line 145 and the stored revision is still 0. *)
Lemma revision_not_committed_without_tlas_buffer :
  GetRevision emptiedFeatureProcessor <> m_rayTracingRevision pass
  /\ GetSubMeshCount emptiedFeatureProcessor = 0
  /\ m_rayTracingRevision
       (e_pass (BuildCommandList sampleHash 8 pass (Some emptiedFeatureProcessor))) = 0
  /\ m_rayTracingRevision
       (e_pass (BuildCommandList sampleHash 8 pass (Some emptiedFeatureProcessor)))
     <> GetRevision emptiedFeatureProcessor.
Proof.
  repeat split; try reflexivity; cbn; lia.
Qed.

Lemma BuildCommandList_commits_revision_witness :
  GetTlasBuffer (GetTlas staticFeatureProcessor) = Some tlasBuffer
  /\ GetRevision staticFeatureProcessor <> m_rayTracingRevision pass
  /\ m_rayTracingRevision
       (e_pass (BuildCommandList sampleHash 8 pass (Some staticFeatureProcessor)))
     = GetRevision staticFeatureProcessor.
Proof.
  assert (Hrevision : GetRevision staticFeatureProcessor <> m_rayTracingRevision pass)
    by (cbn; lia).
  split; [reflexivity|]. split; [exact Hrevision|].
  exact (proj1 (BuildCommandList_commits_revision sampleHash 8 pass staticFeatureProcessor
                  tlasBuffer eq_refl Hrevision)).
Defined.

(** ** C2 *)

Lemma BuildCommandList_up_to_date_witness :
  GetRevision settledFeatureProcessor = m_rayTracingRevision pass
  /\ GetSkinnedMeshCount settledFeatureProcessor = 0
  /\ BuildCommandList sampleHash 8 pass (Some settledFeatureProcessor) =
     {| e_pass := pass; e_scene := Some settledFeatureProcessor; e_commands := [] |}.
Proof.
  split; [reflexivity|]. split; [reflexivity|].
  apply (BuildCommandList_up_to_date sampleHash 8 pass settledFeatureProcessor);
    reflexivity.
Defined.

(** ** C3 *)

Lemma createTlasDescriptor_instances_witness :
  Z.of_nat (length subMeshes) <= 2 ^ 32
  /\ length (m_instances (createTlasDescriptor subMeshes)) = length subMeshes
  /\ map i_instanceID (m_instances (createTlasDescriptor subMeshes)) = [0; 1; 2].
Proof.
  assert (Hsize : Z.of_nat (length subMeshes) <= 2 ^ 32) by (cbn; lia).
  split; [exact Hsize|].
  destruct (createTlasDescriptor_instances subMeshes Hsize) as (Hlength & _ & Hids).
  split; [exact Hlength|exact Hids].
Defined.

(** ** C4 *)

Lemma blasInstance_built_once_witness :
  nth_error (GetBlasInstances featureProcessor) 0 = Some (staticKey, staticInstance)
  /\ exists fp' inst',
      e_scene (BuildCommandList sampleHash 8 pass (Some featureProcessor)) = Some fp'
      /\ nth_error (GetBlasInstances fp') 0 = Some (staticKey, inst')
      /\ m_blasBuilt inst' = true
      /\ fst (blasInstanceBody sampleHash 8 (m_frameCount pass) (staticKey, staticInstance))
         = [BuildBottomLevelAccelerationStructure 101;
            BuildBottomLevelAccelerationStructure 102;
            BuildBottomLevelAccelerationStructure 103].
Proof.
  split; [reflexivity|].
  destruct (blasInstance_built_once sampleHash 8 pass featureProcessor 0
              staticKey staticInstance eq_refl)
    as (fp' & inst' & Hscene & Hentry & _ & _ & Hreach).
  destruct (Hreach eq_refl) as (Hbuilt & _ & Hbuilds & _).
  exists fp', inst'.
  split; [exact Hscene|]. split; [exact Hentry|]. split; [exact Hbuilt|].
  exact (Hbuilds eq_refl).
Defined.

(** ** C5 *)

Lemma skinned_rebuild_decision_witness :
  m_blasBuilt skinnedInstance = true
  /\ m_isSkinnedMesh skinnedInstance = true
  /\ nth_error (m_subMeshes skinnedInstance) 1 = Some {| BlasInstance.m_blas := 202 |}
  /\ nth_error (fst (blasInstanceBody sampleHash 8 3 (skinnedKey, skinnedInstance))) 1
     = Some (if spec_fullRebuild (sampleHash (m_guid skinnedKey)) (Z.of_nat 1) 3 8
             then BuildBottomLevelAccelerationStructure 202
             else UpdateBottomLevelAccelerationStructure 202).
Proof.
  split; [reflexivity|]. split; [reflexivity|]. split; [reflexivity|].
  destruct (skinned_rebuild_decision sampleHash 8 skinnedKey skinnedInstance 3 1
              {| BlasInstance.m_blas := 202 |} eq_refl eq_refl eq_refl)
    as (Hcommand & Hspec).
  assert (Hdiv : (8 | 2 ^ 64)) by (exists (2 ^ 61); reflexivity).
  rewrite <- (Hspec ltac:(lia) Hdiv). exact Hcommand.
Defined.

(** ** C6 *)

Lemma one_full_rebuild_per_interval_witness :
  0 < 8
  /\ (8 | 2 ^ 32)
  /\ length
       (filter (fun frames =>
                  isBottomLevelBuild
                    (subMeshCommand sampleHash 8 (skinnedKey, skinnedInstance)
                                    (frameCountAfter frames 4294967290) 1
                                    {| BlasInstance.m_blas := 202 |}))
               (seq 0 (Z.to_nat 8))) = 1%nat.
Proof.
  assert (Hpos : 0 < 8) by lia.
  assert (Hdiv : (8 | 2 ^ 32)) by (exists (2 ^ 29); reflexivity).
  split; [exact Hpos|]. split; [exact Hdiv|].
  exact (proj1 (one_full_rebuild_per_interval sampleHash 8 skinnedKey skinnedInstance
                  4294967290 1 {| BlasInstance.m_blas := 202 |}
                  Hpos Hdiv eq_refl eq_refl)).
Defined.

(** ** C8 *)

(** C8, as stated, fails: there is a skinned mesh and the skinning pass is
    found, but it has no binding named "SkinnedMeshOutputStream". The code
    makes no check: line 121 goes through the null pointer, and the call does
    not end in an assertion with a diagnostic. *)
Lemma missing_binding_is_not_diagnosed :
  GetSkinnedMeshCount featureProcessor > 0
  /\ FindAdjacentPass pipelineWithoutSkinningOutput "SkinningPass"
     = Some skinningPassWithoutOutput
  /\ FindAttachmentBinding skinningPassWithoutOutput "SkinnedMeshOutputStream" = None
  /\ snd (SetupFrameGraphDependencies pass pipelineWithoutSkinningOutput
                                      (Some featureProcessor)) = NullDereference
  /\ forall message result,
      snd (SetupFrameGraphDependencies pass pipelineWithoutSkinningOutput
                                       (Some featureProcessor))
      <> AssertFailed message result.
Proof.
  split; [cbn; lia|]. split; [reflexivity|]. split; [reflexivity|].
  split; [reflexivity|]. intros message result. discriminate.
Qed.

Lemma skinning_output_attached_witness :
  GetSkinnedMeshCount skinnedFeatureProcessor > 0
  /\ FindAdjacentPass pipelineRejectingImports "SkinningPass" = Some skinningPass
  /\ FindAttachmentBinding skinningPass "SkinnedMeshOutputStream"
     = Some skinnedMeshOutputStream
  /\ (forall message result,
        snd (tlasCalls pass pipelineRejectingImports skinnedFeatureProcessor)
        <> AssertFailed message result)
  /\ exists after,
      fst (SetupFrameGraphDependencies pass pipelineRejectingImports
                                       (Some skinnedFeatureProcessor)) =
      skinningReadDependency skinnedMeshOutputStream ++ after.
Proof.
  assert (Hskinned : GetSkinnedMeshCount skinnedFeatureProcessor > 0) by (cbn; lia).
  assert (Htlas : forall message result,
             snd (tlasCalls pass pipelineRejectingImports skinnedFeatureProcessor)
             <> AssertFailed message result)
    by (intros message result; discriminate).
  split; [exact Hskinned|]. split; [reflexivity|]. split; [reflexivity|].
  split; [exact Htlas|].
  destruct (skinning_output_attached pass pipelineRejectingImports skinnedFeatureProcessor
              skinningPass skinnedMeshOutputStream Hskinned eq_refl eq_refl Htlas)
    as (after & Htrace & _).
  exists after. exact Htrace.
Defined.

(** ** C9 *)



(** ** C10 *)

Lemma empty_blasInstance_marked_built_witness :
  nth_error (GetBlasInstances featureProcessor) 2 = Some (emptyKey, emptyInstance)
  /\ m_subMeshes emptyInstance = []
  /\ m_blasBuilt emptyInstance = false
  /\ reachesBlasLoop pass featureProcessor = true
  /\ fst (blasInstanceBody sampleHash 8 (m_frameCount pass) (emptyKey, emptyInstance)) = []
  /\ exists fp' inst',
      e_scene (BuildCommandList sampleHash 8 pass (Some featureProcessor)) = Some fp'
      /\ nth_error (GetBlasInstances fp') 2 = Some (emptyKey, inst')
      /\ m_blasBuilt inst' = true.
Proof.
  split; [reflexivity|]. split; [reflexivity|]. split; [reflexivity|].
  split; [reflexivity|].
  destruct (empty_blasInstance_marked_built sampleHash 8 pass featureProcessor 2
              emptyKey emptyInstance eq_refl eq_refl eq_refl eq_refl)
    as (Hnone & _ & fp' & inst' & Hscene & Hentry & Hflag & _).
  split; [exact Hnone|]. exists fp', inst'.
  split; [exact Hscene|]. split; [exact Hentry|exact Hflag].
Defined.

(** * Further properties of command emission *)

Section Emission.

Variable GetHash : Uuid -> Z.
Variable SKINNED_BLAS_REBUILD_FRAME_INTERVAL : Z.

Lemma subMeshCommand_target blasInstance frameCount submeshIndex s :
  bottomLevelTarget
    (subMeshCommand GetHash SKINNED_BLAS_REBUILD_FRAME_INTERVAL
                    blasInstance frameCount submeshIndex s) = [BlasInstance.m_blas s].
Proof.
  unfold subMeshCommand.
  destruct (Bool.eqb _ false); [reflexivity|].
  destruct (_ && _); reflexivity.
Qed.

Lemma subMeshLoop_targets blasInstance frameCount rest : forall submeshIndex,
  flat_map bottomLevelTarget
    (subMeshLoop GetHash SKINNED_BLAS_REBUILD_FRAME_INTERVAL
                 blasInstance frameCount submeshIndex rest) =
  map BlasInstance.m_blas rest.
Proof.
  induction rest as [|s rest IH]; intros; [reflexivity|].
  cbn [subMeshLoop flat_map map]. now rewrite subMeshCommand_target, IH.
Qed.

Lemma subMeshLoop_In blasInstance frameCount c rest : forall submeshIndex,
  In c (subMeshLoop GetHash SKINNED_BLAS_REBUILD_FRAME_INTERVAL
                    blasInstance frameCount submeshIndex rest) ->
  exists s index,
    In s rest
    /\ c = subMeshCommand GetHash SKINNED_BLAS_REBUILD_FRAME_INTERVAL
                          blasInstance frameCount index s.
Proof.
  induction rest as [|s rest IH]; intros submeshIndex Hin; [destruct Hin|].
  cbn [subMeshLoop] in Hin. destruct Hin as [<-|Hin].
  - exists s, submeshIndex. split; [now left|reflexivity].
  - destruct (IH _ Hin) as (s' & index & Hs' & ->).
    exists s', index. split; [now right|reflexivity].
Qed.

Lemma blasInstanceBody_targets frameCount kv :
  flat_map bottomLevelTarget
    (fst (blasInstanceBody GetHash SKINNED_BLAS_REBUILD_FRAME_INTERVAL frameCount kv)) =
  blasWork kv.
Proof.
  unfold blasInstanceBody, blasWork, needsBlasWork.
  destruct (_ || _); [|reflexivity].
  cbn [fst]. apply subMeshLoop_targets.
Qed.

Lemma blasInstanceBody_markBuilt frameCount kv :
  snd (blasInstanceBody GetHash SKINNED_BLAS_REBUILD_FRAME_INTERVAL frameCount kv) =
  markBuilt kv.
Proof.
  unfold blasInstanceBody, markBuilt.
  destruct kv as [key [subMeshes built skinned]]. cbn [fst snd m_blasBuilt m_isSkinnedMesh].
  destruct built, skinned; reflexivity.
Qed.

Lemma blasInstanceLoop_markBuilt frameCount blasInstances :
  snd (blasInstanceLoop GetHash SKINNED_BLAS_REBUILD_FRAME_INTERVAL
                        frameCount blasInstances) =
  map markBuilt blasInstances.
Proof.
  rewrite blasInstanceLoop_spec. cbn [snd].
  apply map_ext. intros kv. apply blasInstanceBody_markBuilt.
Qed.

Lemma blasInstanceLoop_targets frameCount blasInstances :
  flat_map bottomLevelTarget
    (fst (blasInstanceLoop GetHash SKINNED_BLAS_REBUILD_FRAME_INTERVAL
                           frameCount blasInstances)) =
  flat_map blasWork blasInstances.
Proof.
  rewrite blasInstanceLoop_spec. cbn [fst].
  induction blasInstances as [|kv rest IH]; [reflexivity|].
  cbn [flat_map]. now rewrite flat_map_app, IH, blasInstanceBody_targets.
Qed.

Lemma bottomLevel_one_target commands :
  forallb isBottomLevelCommand commands = true ->
  length (flat_map bottomLevelTarget commands) = length commands.
Proof.
  induction commands as [|c rest IH]; [reflexivity|].
  cbn [forallb flat_map]. intros H. apply andb_prop in H. destruct H as [Hc Hrest].
  rewrite length_app, IH by assumption. destruct c; [reflexivity..|discriminate].
Qed.

(** X1. In a frame that reaches the instance loop, the bottom-level commands
    work, in order, on exactly the BLAS objects of the sub-meshes of the
    instances that were never built or are skinned, each once; with the
    top-level build the frame records one command more than that. *)
Theorem BuildCommandList_targets this fp
  (Hreach : reachesBlasLoop this fp = true) :
  flat_map bottomLevelTarget
    (e_commands (BuildCommandList GetHash SKINNED_BLAS_REBUILD_FRAME_INTERVAL this (Some fp)))
  = flat_map blasWork (GetBlasInstances fp)
  /\ length
       (e_commands (BuildCommandList GetHash SKINNED_BLAS_REBUILD_FRAME_INTERVAL
                                     this (Some fp)))
     = S (length (flat_map blasWork (GetBlasInstances fp))).
Proof.
  rewrite (BuildCommandList_reaches _ _ _ _ Hreach). cbn [e_commands].
  rewrite flat_map_app, length_app. cbn [flat_map bottomLevelTarget length].
  rewrite app_nil_r, <- blasInstanceLoop_targets with (frameCount := m_frameCount this).
  split; [reflexivity|].
  rewrite bottomLevel_one_target by apply blasInstanceLoop_bottomLevel. lia.
Qed.

Lemma BuildCommandList_scene_after this fp :
  e_scene (BuildCommandList GetHash SKINNED_BLAS_REBUILD_FRAME_INTERVAL this (Some fp)) =
  Some (if reachesBlasLoop this fp
        then set_BlasInstances (map markBuilt (GetBlasInstances fp)) fp
        else fp).
Proof.
  destruct (reachesBlasLoop this fp) eqn:Hreach.
  - rewrite (BuildCommandList_reaches _ _ _ _ Hreach). cbn [e_scene].
    now rewrite blasInstanceLoop_markBuilt.
  - now destruct (BuildCommandList_returns_early GetHash
                    SKINNED_BLAS_REBUILD_FRAME_INTERVAL _ _ Hreach) as (_ & Hs & _).
Qed.

(** X2. The only thing [BuildCommandList] changes in the feature processor is
    the built flags: a frame that reaches the instance loop leaves the map
    with the same entries in the same order and every flag set, and a frame
    that returns early leaves the feature processor as it was. Entry by
    entry: after a frame that reaches the loop the map has the same length,
    and the entry at each position has the same key, the same sub-meshes and
    the same skinned flag, and its built flag is set. *)
Theorem BuildCommandList_sets_built_flags this fp :
  e_scene (BuildCommandList GetHash SKINNED_BLAS_REBUILD_FRAME_INTERVAL this (Some fp)) =
  Some (if reachesBlasLoop this fp
        then set_BlasInstances (map markBuilt (GetBlasInstances fp)) fp
        else fp)
  /\ (reachesBlasLoop this fp = true ->
      exists fp',
        e_scene (BuildCommandList GetHash SKINNED_BLAS_REBUILD_FRAME_INTERVAL this (Some fp))
        = Some fp'
        /\ length (GetBlasInstances fp') = length (GetBlasInstances fp)
        /\ forall n key inst,
            nth_error (GetBlasInstances fp) n = Some (key, inst) ->
            exists inst',
              nth_error (GetBlasInstances fp') n = Some (key, inst')
              /\ m_blasBuilt inst' = true
              /\ m_subMeshes inst' = m_subMeshes inst
              /\ m_isSkinnedMesh inst' = m_isSkinnedMesh inst).
Proof.
  split; [apply BuildCommandList_scene_after|].
  intros Hreach. rewrite BuildCommandList_scene_after, Hreach.
  eexists. split; [reflexivity|]. cbn [GetBlasInstances set_BlasInstances].
  split; [apply length_map|].
  intros n key inst Hn. exists (set_blasBuilt true inst).
  rewrite nth_error_map, Hn. repeat split.
Qed.

Lemma BuildCommandList_nothing_to_do this fp :
  GetTlasBuffer (GetTlas fp) = None
  \/ (GetRevision fp = m_rayTracingRevision this /\ GetSkinnedMeshCount fp = 0) ->
  BuildCommandList GetHash SKINNED_BLAS_REBUILD_FRAME_INTERVAL this (Some fp) =
  {| e_pass := this; e_scene := Some fp; e_commands := [] |}.
Proof.
  intros H. unfold BuildCommandList.
  destruct (GetTlasBuffer (GetTlas fp)); [|reflexivity].
  destruct H as [H|[Hrev Hskinned]]; [discriminate|].
  now rewrite Hrev, Hskinned, Z.eqb_refl.
Qed.

Lemma BuildCommandList_leaves_settled this fp :
  GetSkinnedMeshCount fp = 0 ->
  exists this' fp' commands,
    BuildCommandList GetHash SKINNED_BLAS_REBUILD_FRAME_INTERVAL this (Some fp) =
    {| e_pass := this'; e_scene := Some fp'; e_commands := commands |}
    /\ (GetTlasBuffer (GetTlas fp') = None
        \/ (GetRevision fp' = m_rayTracingRevision this' /\ GetSkinnedMeshCount fp' = 0)).
Proof.
  intros Hskinned. unfold BuildCommandList.
  destruct (GetTlasBuffer (GetTlas fp)) as [buffer|] eqn:Hbuffer.
  2:{ do 3 eexists. split; [reflexivity|]. now left. }
  rewrite Hskinned. cbn [Z.eqb].
  destruct (GetRevision fp =? m_rayTracingRevision this) eqn:Hrev; cbn [andb].
  { do 3 eexists. split; [reflexivity|]. right. split; [now apply Z.eqb_eq|assumption]. }
  destruct (GetSubMeshCount fp =? 0).
  { do 3 eexists. split; [reflexivity|]. right. split; [reflexivity|assumption]. }
  destruct (blasInstanceLoop _ _ _ _) as [commands blasInstances].
  do 3 eexists. split; [reflexivity|]. right. split; [reflexivity|assumption].
Qed.

(** X3. Without skinned meshes one call settles the pass: a second call of
    [BuildCommandList] on what the first one left records nothing and changes
    nothing. *)
Theorem BuildCommandList_settles this fp
  (Hskinned : GetSkinnedMeshCount fp = 0) :
  BuildCommandList GetHash SKINNED_BLAS_REBUILD_FRAME_INTERVAL
    (e_pass (BuildCommandList GetHash SKINNED_BLAS_REBUILD_FRAME_INTERVAL this (Some fp)))
    (e_scene (BuildCommandList GetHash SKINNED_BLAS_REBUILD_FRAME_INTERVAL this (Some fp)))
  = {| e_pass :=
         e_pass (BuildCommandList GetHash SKINNED_BLAS_REBUILD_FRAME_INTERVAL this (Some fp));
       e_scene :=
         e_scene (BuildCommandList GetHash SKINNED_BLAS_REBUILD_FRAME_INTERVAL this (Some fp));
       e_commands := [] |}.
Proof.
  destruct (BuildCommandList_leaves_settled this fp Hskinned)
    as (this' & fp' & commands & -> & Hsettled).
  cbn [e_pass e_scene]. now apply BuildCommandList_nothing_to_do.
Qed.

(** X4. An update is only ever recorded for a sub-mesh of an instance that is
    skinned and was built before: an instance that is not skinned, or was
    never built, gets no update. *)
Theorem update_only_for_built_skinned this fp blas
  (Hupdate : In (UpdateBottomLevelAccelerationStructure blas)
                (e_commands (BuildCommandList GetHash SKINNED_BLAS_REBUILD_FRAME_INTERVAL
                                              this (Some fp)))) :
  exists key inst s,
    In (key, inst) (GetBlasInstances fp)
    /\ m_blasBuilt inst = true
    /\ m_isSkinnedMesh inst = true
    /\ In s (m_subMeshes inst)
    /\ BlasInstance.m_blas s = blas.
Proof.
  destruct (reachesBlasLoop this fp) eqn:Hreach.
  2:{ destruct (BuildCommandList_returns_early GetHash
                  SKINNED_BLAS_REBUILD_FRAME_INTERVAL _ _ Hreach) as (Hc & _).
      rewrite Hc in Hupdate. destruct Hupdate. }
  rewrite (BuildCommandList_reaches _ _ _ _ Hreach) in Hupdate. cbn [e_commands] in Hupdate.
  apply in_app_or in Hupdate. destruct Hupdate as [Hin|[Habs|[]]]; [|discriminate].
  rewrite blasInstanceLoop_spec in Hin. cbn [fst] in Hin.
  apply in_flat_map in Hin. destruct Hin as ([key inst] & Hentry & Hin).
  unfold blasInstanceBody in Hin. cbn [fst snd] in Hin.
  destruct (Bool.eqb (m_blasBuilt inst) false || m_isSkinnedMesh inst); [|destruct Hin].
  cbn [fst] in Hin. apply subMeshLoop_In in Hin. destruct Hin as (s & index & Hs & Hc).
  unfold subMeshCommand in Hc. cbn [fst snd] in Hc.
  destruct (m_blasBuilt inst) eqn:Hbuilt; cbn [Bool.eqb] in Hc; [|discriminate].
  destruct (m_isSkinnedMesh inst) eqn:Hskinned; cbn [andb] in Hc; [|discriminate].
  exists key, inst, s. repeat split; try assumption.
  destruct (negb _); congruence.
Qed.

(** *** Consecutive frames with skinned meshes *)

Lemma reachesBlasLoop_again this this' fp blasInstances :
  reachesBlasLoop this fp = true ->
  GetSkinnedMeshCount fp <> 0 ->
  reachesBlasLoop this' (set_BlasInstances blasInstances fp) = true.
Proof.
  unfold reachesBlasLoop. cbn [GetTlas GetRevision GetSkinnedMeshCount GetSubMeshCount
                                set_BlasInstances].
  destruct (GetTlasBuffer (GetTlas fp)); [|discriminate].
  intros Hreach Hskinned. apply Z.eqb_neq in Hskinned. rewrite Hskinned.
  rewrite andb_false_r. cbn [negb andb].
  apply andb_prop in Hreach. now destruct Hreach.
Qed.

Lemma markBuilt_idempotent blasInstances :
  map markBuilt (map markBuilt blasInstances) = map markBuilt blasInstances.
Proof. rewrite map_map. apply map_ext. intros [key inst]. reflexivity. Qed.

Lemma runFrames_skinned frames : forall this fp
  (Hreach : reachesBlasLoop this fp = true)
  (Hskinned : GetSkinnedMeshCount fp <> 0),
  let result := runFrames GetHash SKINNED_BLAS_REBUILD_FRAME_INTERVAL frames this (Some fp) in
  m_frameCount (fst (fst result)) = frameCountAfter frames (m_frameCount this)
  /\ length (snd result) = frames
  /\ Forall (fun commands =>
               exists blasCommands,
                 commands = blasCommands ++ [BuildTopLevelAccelerationStructure (GetTlas fp)]
                 /\ forallb isBottomLevelCommand blasCommands = true)
            (snd result)
  /\ (frames <> 0%nat ->
      m_rayTracingRevision (fst (fst result)) = GetRevision fp
      /\ snd (fst result)
         = Some (set_BlasInstances (map markBuilt (GetBlasInstances fp)) fp)).
Proof.
  induction frames as [|frames IH]; intros this fp Hreach Hskinned.
  - cbn. repeat split; [constructor|contradiction..].
  - cbn zeta. cbn [runFrames].
    rewrite (BuildCommandList_reaches _ _ _ _ Hreach). cbn [e_pass e_scene e_commands].
    rewrite blasInstanceLoop_markBuilt.
    set (this1 := {| m_rayTracingRevision := GetRevision fp;
                     m_frameCount := nextFrameCount (m_frameCount this) |}).
    set (fp1 := set_BlasInstances (map markBuilt (GetBlasInstances fp)) fp).
    assert (Hreach1 : reachesBlasLoop this1 fp1 = true)
      by (now apply (reachesBlasLoop_again this)).
    specialize (IH this1 fp1 Hreach1 Hskinned). cbn zeta in IH.
    destruct (runFrames GetHash SKINNED_BLAS_REBUILD_FRAME_INTERVAL frames this1 (Some fp1))
      as [[this' scene'] log] eqn:Hrun.
    cbn [fst snd] in *. destruct IH as (Hcount & Hlength & Hlog & Hstate).
    split.
    { rewrite Hcount. unfold frameCountAfter. now rewrite Nat.iter_succ_r. }
    split; [cbn; now rewrite Hlength|].
    split.
    { constructor; [|exact Hlog].
      eexists. split; [reflexivity|apply blasInstanceLoop_bottomLevel]. }
    intros _. destruct frames as [|frames].
    + cbn in Hrun. injection Hrun as <- <- <-. split; reflexivity.
    + destruct Hstate as (Hrev & Hscene); [discriminate|].
      split; [exact Hrev|]. rewrite Hscene. unfold fp1.
      cbn [GetBlasInstances set_BlasInstances]. now rewrite markBuilt_idempotent.
Qed.

(** X5. With a TLAS buffer, sub-meshes and at least one skinned mesh, every
    one of any number of consecutive calls of [BuildCommandList] ends with the
    top-level build, whether or not the revision changes: the frame counter
    has advanced once per call, and from the first call on the stored
    revision is the observed one and every instance of the map is marked
    built: the built flag of every entry of the map is set. *)
Theorem skinned_scene_rebuilt_every_frame frames : forall this fp
  (Hreach : reachesBlasLoop this fp = true)
  (Hskinned : GetSkinnedMeshCount fp <> 0),
  let result := runFrames GetHash SKINNED_BLAS_REBUILD_FRAME_INTERVAL frames this (Some fp) in
  m_frameCount (fst (fst result)) = frameCountAfter frames (m_frameCount this)
  /\ length (snd result) = frames
  /\ Forall (fun commands =>
               exists blasCommands,
                 commands = blasCommands ++ [BuildTopLevelAccelerationStructure (GetTlas fp)]
                 /\ forallb isBottomLevelCommand blasCommands = true)
            (snd result)
  /\ (frames <> 0%nat ->
      m_rayTracingRevision (fst (fst result)) = GetRevision fp
      /\ snd (fst result)
         = Some (set_BlasInstances (map markBuilt (GetBlasInstances fp)) fp))
  /\ (frames <> 0%nat ->
      exists fp',
        snd (fst result) = Some fp'
        /\ length (GetBlasInstances fp') = length (GetBlasInstances fp)
        /\ Forall (fun kv => m_blasBuilt (snd kv) = true) (GetBlasInstances fp')).
Proof.
  intros this fp Hreach Hskinned. cbn zeta.
  destruct (runFrames_skinned frames this fp Hreach Hskinned)
    as (Hcount & Hlength & Hlog & Hstate).
  split; [exact Hcount|]. split; [exact Hlength|]. split; [exact Hlog|].
  split; [exact Hstate|].
  intros Hframes. destruct (Hstate Hframes) as (_ & Hscene).
  eexists. split; [exact Hscene|]. cbn [GetBlasInstances set_BlasInstances].
  split; [apply length_map|].
  apply Forall_forall. intros kv Hin. apply in_map_iff in Hin.
  destruct Hin as (kv0 & <- & _). reflexivity.
Qed.

(** *** How the rebuilds are spread *)

Lemma subMeshLoop_builds key inst frameCount rest :
  m_blasBuilt inst = true -> m_isSkinnedMesh inst = true ->
  forall submeshIndex,
    map isBottomLevelBuild
        (subMeshLoop GetHash SKINNED_BLAS_REBUILD_FRAME_INTERVAL
                     (key, inst) frameCount submeshIndex rest) =
    map (fun j => rebuildKey SKINNED_BLAS_REBUILD_FRAME_INTERVAL (GetHash (m_guid key))
                             (submeshIndex + Z.of_nat j) frameCount =? 0)
        (seq 0 (length rest)).
Proof.
  intros Hbuilt Hskinned. induction rest as [|s rest IH]; intros; [reflexivity|].
  cbn [subMeshLoop map length seq].
  rewrite subMeshCommand_skinned by assumption.
  rewrite IH, <- seq_shift, map_map, Z.add_0_r. f_equal.
  - now destruct (rebuildKey _ _ _ _ =? 0).
  - apply map_ext. intros j. do 2 f_equal. lia.
Qed.

Lemma filter_map_length {A B} (f : A -> B) (p : B -> bool) l :
  length (filter p (map f l)) = length (filter (fun x => p (f x)) l).
Proof.
  induction l as [|x l IH]; [reflexivity|].
  cbn. destruct (p (f x)); cbn; now rewrite IH.
Qed.

Lemma firstn_seq n : forall start len,
  (n <= len)%nat -> firstn n (seq start len) = seq start n.
Proof.
  induction n as [|n IH]; intros start len Hle; [reflexivity|].
  destruct len as [|len]; [lia|]. cbn. f_equal. apply IH. lia.
Qed.

Lemma window_of_map_seq {B} (g : nat -> B) start n len :
  (start + n <= len)%nat ->
  firstn n (skipn start (map g (seq 0 len))) = map g (seq start n).
Proof.
  intros Hle. rewrite skipn_map, firstn_map, skipn_seq. f_equal.
  apply firstn_seq. lia.
Qed.

Lemma seq_offset n : forall start,
  seq start n = map (fun j => (start + j)%nat) (seq 0 n).
Proof.
  induction n as [|n IH]; intros start; [reflexivity|].
  cbn [seq map]. f_equal; [lia|].
  rewrite (IH (S start)), <- seq_shift, map_map.
  apply map_ext. intros j. lia.
Qed.

(** X6. The sub-meshes of a built, skinned instance are rebuilt in turn: for
    every positive interval that divides 2^64, in any frame, among the
    commands of any [SKINNED_BLAS_REBUILD_FRAME_INTERVAL] consecutive
    sub-meshes of the instance exactly one is a full build. So an instance
    with that many sub-meshes has exactly one of them rebuilt per frame. *)
Theorem sub_meshes_rebuilt_in_turn key inst frameCount start
  (Hpos : 0 < SKINNED_BLAS_REBUILD_FRAME_INTERVAL)
  (Hdiv : (SKINNED_BLAS_REBUILD_FRAME_INTERVAL | 2 ^ 64))
  (Hbuilt : m_blasBuilt inst = true)
  (Hskinned : m_isSkinnedMesh inst = true)
  (Hwindow : (start + Z.to_nat SKINNED_BLAS_REBUILD_FRAME_INTERVAL
              <= length (m_subMeshes inst))%nat) :
  length
    (filter isBottomLevelBuild
            (firstn (Z.to_nat SKINNED_BLAS_REBUILD_FRAME_INTERVAL)
                    (skipn start
                           (fst (blasInstanceBody GetHash SKINNED_BLAS_REBUILD_FRAME_INTERVAL
                                                  frameCount (key, inst))))))
  = 1%nat.
Proof.
  unfold blasInstanceBody. cbn [fst snd]. rewrite Hbuilt, Hskinned. cbn [Bool.eqb orb fst].
  rewrite <- (filter_map_length isBottomLevelBuild (fun b : bool => b)).
  rewrite <- firstn_map, <- skipn_map, subMeshLoop_builds by assumption.
  rewrite window_of_map_seq by assumption.
  rewrite filter_map_length, seq_offset, filter_map_length.
  rewrite (filter_ext _
             (fun j => (GetHash (m_guid key) + Z.of_nat start + frameCount + Z.of_nat j)
                         mod SKINNED_BLAS_REBUILD_FRAME_INTERVAL =? 0)).
  - now rewrite one_zero_residue.
  - intros j. rewrite rebuildKey_integers by assumption. do 2 f_equal. lia.
Qed.

Lemma subMeshCommand_same_key blasInstance frameCount frameCount' submeshIndex s :
  rebuildKey SKINNED_BLAS_REBUILD_FRAME_INTERVAL (GetHash (m_guid (fst blasInstance)))
             submeshIndex frameCount
  = rebuildKey SKINNED_BLAS_REBUILD_FRAME_INTERVAL (GetHash (m_guid (fst blasInstance)))
               submeshIndex frameCount' ->
  subMeshCommand GetHash SKINNED_BLAS_REBUILD_FRAME_INTERVAL
                 blasInstance frameCount submeshIndex s
  = subMeshCommand GetHash SKINNED_BLAS_REBUILD_FRAME_INTERVAL
                   blasInstance frameCount' submeshIndex s.
Proof. intros Hkey. unfold subMeshCommand. now rewrite Hkey. Qed.

Lemma subMeshLoop_same_keys blasInstance frameCount frameCount' rest :
  (forall submeshIndex,
      rebuildKey SKINNED_BLAS_REBUILD_FRAME_INTERVAL (GetHash (m_guid (fst blasInstance)))
                 submeshIndex frameCount
      = rebuildKey SKINNED_BLAS_REBUILD_FRAME_INTERVAL (GetHash (m_guid (fst blasInstance)))
                   submeshIndex frameCount') ->
  forall submeshIndex,
    subMeshLoop GetHash SKINNED_BLAS_REBUILD_FRAME_INTERVAL
                blasInstance frameCount submeshIndex rest
    = subMeshLoop GetHash SKINNED_BLAS_REBUILD_FRAME_INTERVAL
                  blasInstance frameCount' submeshIndex rest.
Proof.
  intros Hkeys. induction rest as [|s rest IH]; intros; [reflexivity|].
  cbn [subMeshLoop]. now rewrite IH, (subMeshCommand_same_key _ _ _ _ _ (Hkeys _)).
Qed.

(** X7. The bottom-level commands of a frame repeat with the interval: for
    every positive interval that divides 2^32, the instance loop records for
    the same map the same commands after
    [SKINNED_BLAS_REBUILD_FRAME_INTERVAL] more increments of the frame
    counter, also across the wrap-around of the counter. *)
Theorem blas_commands_repeat_with_interval frameCount frames blasInstances
  (Hpos : 0 < SKINNED_BLAS_REBUILD_FRAME_INTERVAL)
  (Hdiv : (SKINNED_BLAS_REBUILD_FRAME_INTERVAL | 2 ^ 32)) :
  fst (blasInstanceLoop GetHash SKINNED_BLAS_REBUILD_FRAME_INTERVAL
         (frameCountAfter (frames + Z.to_nat SKINNED_BLAS_REBUILD_FRAME_INTERVAL) frameCount)
         blasInstances)
  = fst (blasInstanceLoop GetHash SKINNED_BLAS_REBUILD_FRAME_INTERVAL
           (frameCountAfter frames frameCount) blasInstances).
Proof.
  rewrite !blasInstanceLoop_spec. cbn [fst].
  apply flat_map_ext. intros kv. unfold blasInstanceBody.
  destruct (_ || _); [|reflexivity]. cbn [fst].
  apply subMeshLoop_same_keys. intros submeshIndex.
  rewrite !rebuildKey_frameCountAfter by assumption.
  rewrite Nat2Z.inj_add, Z2Nat.id by lia.
  rewrite Z.add_assoc.
  rewrite <- (Z.mul_1_l SKINNED_BLAS_REBUILD_FRAME_INTERVAL) at 1.
  now rewrite Z.mod_add by lia.
Qed.

End Emission.

(** * Further properties of dependency declaration *)

(** Lines 62-113 as one trace and one outcome. *)
Lemma rebuildTlas_cases env fp :
  rebuildTlas env fp =
  (EvCreateBuffers (createTlasDescriptor (GetSubMeshes fp))
   :: fst (attachTlasBuffer (frameGraph env) fp
             (GetTlasBuffer (CreateBuffers env (GetTlas fp)
                                           (createTlasDescriptor (GetSubMeshes fp))))
             (GetSubMeshCount fp)),
   match snd (attachTlasBuffer (frameGraph env) fp
                (GetTlasBuffer (CreateBuffers env (GetTlas fp)
                                              (createTlasDescriptor (GetSubMeshes fp))))
                (GetSubMeshCount fp)) with
   | Returned _ =>
       Returned (set_Tlas (CreateBuffers env (GetTlas fp)
                                         (createTlasDescriptor (GetSubMeshes fp))) fp)
   | AssertFailed message result => AssertFailed message result
   | NullDereference => NullDereference
   end).
Proof.
  unfold rebuildTlas.
  destruct (attachTlasBuffer _ _ _ _) as [trace [[]| |]]; cbn; rewrite ?app_nil_r; reflexivity.
Qed.

(** Lines 53-131 as one trace and one outcome. *)
Lemma Setup_cases this env fp :
  SetupFrameGraphDependencies this env (Some fp) =
  match snd (tlasCalls this env fp) with
  | Returned fp1 =>
      match snd (skinningCalls env fp1) with
      | Returned _ =>
          (fst (tlasCalls this env fp) ++ fst (skinningCalls env fp1)
           ++ [EvUpdateRayTracingSrgs],
           Returned (Some fp1))
      | AssertFailed message result =>
          (fst (tlasCalls this env fp) ++ fst (skinningCalls env fp1),
           AssertFailed message result)
      | NullDereference =>
          (fst (tlasCalls this env fp) ++ fst (skinningCalls env fp1), NullDereference)
      end
  | AssertFailed message result => (fst (tlasCalls this env fp), AssertFailed message result)
  | NullDereference => (fst (tlasCalls this env fp), NullDereference)
  end.
Proof.
  unfold SetupFrameGraphDependencies.
  change (if negb (GetRevision fp =? m_rayTracingRevision this)
          then rebuildTlas env fp else ret fp) with (tlasCalls this env fp).
  destruct (tlasCalls this env fp) as [trace [fp1| |]]; cbn [bind fst snd]; [|reflexivity..].
  change (if GetSkinnedMeshCount fp1 >? 0 then attachSkinningOutput env else ret tt)
    with (skinningCalls env fp1).
  destruct (skinningCalls env fp1) as [trace' [[]| |]]; cbn; rewrite ?app_nil_r; reflexivity.
Qed.

Lemma tlasCalls_unchanged this env fp :
  GetRevision fp = m_rayTracingRevision this ->
  tlasCalls this env fp = ([], Returned fp).
Proof. intros Hrev. unfold tlasCalls. now rewrite Hrev, Z.eqb_refl. Qed.

Lemma tlasCalls_changed this env fp :
  GetRevision fp <> m_rayTracingRevision this ->
  tlasCalls this env fp = rebuildTlas env fp.
Proof. intros Hrev. unfold tlasCalls. apply Z.eqb_neq in Hrev. now rewrite Hrev. Qed.

Lemma attachTlasBuffer_kinds frameGraph fp buffer count e :
  In e (fst (attachTlasBuffer frameGraph fp buffer count)) ->
  isCreateBuffers e = false /\ isUpdateRayTracingSrgs e = false.
Proof.
  rewrite attachTlasBuffer_cases.
  destruct buffer as [b|]; [|intros []].
  destruct (count =? 0); [intros []|].
  destruct (IsAttachmentValid _ _).
  - intros [<-|[]]. split; reflexivity.
  - destruct (RHI.ResultCode_eqb _ _).
    + intros [<-|[<-|[]]]; split; reflexivity.
    + intros [<-|[]]; split; reflexivity.
Qed.

Lemma tlasCalls_no_srg this env fp e :
  In e (fst (tlasCalls this env fp)) -> isUpdateRayTracingSrgs e = false.
Proof.
  unfold tlasCalls. destruct (negb _); [|intros []].
  rewrite rebuildTlas_cases. cbn [fst]. intros [<-|Hin]; [reflexivity|].
  now apply attachTlasBuffer_kinds in Hin.
Qed.

Lemma skinningCalls_kinds env fp e :
  In e (fst (skinningCalls env fp)) ->
  isWriteUse e = false /\ isImportBuffer e = false
  /\ isCreateBuffers e = false /\ isUpdateRayTracingSrgs e = false.
Proof.
  unfold skinningCalls. destruct (_ >? 0); [|intros []].
  rewrite attachSkinningOutput_cases.
  destruct (FindAdjacentPass env "SkinningPass") as [skinningPass|].
  - destruct (FindAttachmentBinding skinningPass "SkinnedMeshOutputStream").
    + cbn. intros [<-|[<-|[<-|[]]]]; repeat split.
    + cbn. intros [<-|[<-|[]]]; repeat split.
  - cbn. intros [<-|[]]; repeat split.
Qed.

Lemma tlasCalls_returned this env fp fp1 :
  snd (tlasCalls this env fp) = Returned fp1 ->
  fp1 = if GetRevision fp =? m_rayTracingRevision this
        then fp
        else set_Tlas (CreateBuffers env (GetTlas fp)
                                     (createTlasDescriptor (GetSubMeshes fp))) fp.
Proof.
  unfold tlasCalls. destruct (GetRevision fp =? m_rayTracingRevision this); cbn [negb].
  - cbn. congruence.
  - rewrite rebuildTlas_cases. cbn [snd].
    destruct (snd (attachTlasBuffer _ _ _ _)); congruence.
Qed.

Lemma Setup_returned this env fp scene' :
  snd (SetupFrameGraphDependencies this env (Some fp)) = Returned scene' ->
  exists fp1,
    scene' = Some fp1
    /\ snd (tlasCalls this env fp) = Returned fp1
    /\ snd (skinningCalls env fp1) = Returned tt
    /\ fst (SetupFrameGraphDependencies this env (Some fp))
       = fst (tlasCalls this env fp) ++ fst (skinningCalls env fp1)
         ++ [EvUpdateRayTracingSrgs].
Proof.
  rewrite Setup_cases.
  destruct (snd (tlasCalls this env fp)) as [fp1| |] eqn:Htlas; [|discriminate..].
  destruct (snd (skinningCalls env fp1)) as [[]| |] eqn:Hskinning; [|discriminate..].
  cbn [fst snd]. intros [= <-]. exists fp1. repeat split; assumption.
Qed.

(** X8. With a feature processor registered, the SRG update is the last thing
    a call of [SetupFrameGraphDependencies] does and it does it once: a call
    that returns has made it as its last call and not before; a call that
    does not return has not made it. When the revision changed,
    [CreateBuffers] is the first call and is made once, so the SRGs are
    updated after the TLAS buffers were created. With no feature processor
    registered the call returns without having made any call. *)
Theorem srg_update_is_last this env fp :
  SetupFrameGraphDependencies this env None = ([], Returned None)
  /\ (forall scene',
      snd (SetupFrameGraphDependencies this env (Some fp)) = Returned scene' ->
      exists calls,
        fst (SetupFrameGraphDependencies this env (Some fp))
        = calls ++ [EvUpdateRayTracingSrgs]
        /\ forall e, In e calls -> isUpdateRayTracingSrgs e = false)
  /\ ((forall scene',
         snd (SetupFrameGraphDependencies this env (Some fp)) <> Returned scene') ->
      forall e,
        In e (fst (SetupFrameGraphDependencies this env (Some fp))) ->
        isUpdateRayTracingSrgs e = false)
  /\ (GetRevision fp <> m_rayTracingRevision this ->
      exists calls,
        fst (SetupFrameGraphDependencies this env (Some fp))
        = EvCreateBuffers (createTlasDescriptor (GetSubMeshes fp)) :: calls
        /\ forall e, In e calls -> isCreateBuffers e = false).
Proof.
  split; [reflexivity|]. split; [|split].
  - intros scene' Hret.
    destruct (Setup_returned _ _ _ _ Hret) as (fp1 & _ & _ & _ & ->).
    exists (fst (tlasCalls this env fp) ++ fst (skinningCalls env fp1)).
    split; [now rewrite app_assoc|].
    intros e Hin. apply in_app_or in Hin. destruct Hin as [Hin|Hin].
    + now apply tlasCalls_no_srg in Hin.
    + now apply skinningCalls_kinds in Hin.
  - intros Hnot e. rewrite Setup_cases in Hnot |- *.
    destruct (snd (tlasCalls this env fp)) as [fp1| |]; cbn [fst];
      [|apply tlasCalls_no_srg..].
    destruct (snd (skinningCalls env fp1)) as [[]| |]; cbn [fst snd] in *.
    + now contradiction (Hnot (Some fp1)).
    + intros Hin. apply in_app_or in Hin. destruct Hin as [Hin|Hin];
        [now apply tlasCalls_no_srg in Hin|now apply skinningCalls_kinds in Hin].
    + intros Hin. apply in_app_or in Hin. destruct Hin as [Hin|Hin];
        [now apply tlasCalls_no_srg in Hin|now apply skinningCalls_kinds in Hin].
  - intros Hrev.
    assert (Hfirst : fst (tlasCalls this env fp)
                     = EvCreateBuffers (createTlasDescriptor (GetSubMeshes fp))
                       :: fst (attachTlasBuffer (frameGraph env) fp
                                 (GetTlasBuffer
                                    (CreateBuffers env (GetTlas fp)
                                       (createTlasDescriptor (GetSubMeshes fp))))
                                 (GetSubMeshCount fp)))
      by (now rewrite tlasCalls_changed, rebuildTlas_cases).
    rewrite Setup_cases.
    destruct (snd (tlasCalls this env fp)) as [fp1| |]; cbn [fst]; rewrite Hfirst.
    2,3: eexists; split; [reflexivity|];
         intros e Hin; now apply attachTlasBuffer_kinds in Hin.
    destruct (snd (skinningCalls env fp1)) as [[]| |]; cbn [fst];
      (eexists; split; [rewrite <- app_comm_cons; reflexivity|]);
      intros e Hin; repeat (apply in_app_or in Hin; destruct Hin as [Hin|Hin]);
      try (now apply attachTlasBuffer_kinds in Hin);
      try (now apply skinningCalls_kinds in Hin);
      try (destruct Hin as [<-|[]]; reflexivity).
Qed.

Lemma Setup_trace_parts this env fp e :
  In e (fst (SetupFrameGraphDependencies this env (Some fp))) ->
  In e (fst (tlasCalls this env fp))
  \/ (exists fp1, In e (fst (skinningCalls env fp1)))
  \/ e = EvUpdateRayTracingSrgs.
Proof.
  rewrite Setup_cases.
  destruct (snd (tlasCalls this env fp)) as [fp1| |]; cbn [fst]; [|now left..].
  destruct (snd (skinningCalls env fp1)) as [[]| |]; cbn [fst]; intros Hin;
    repeat (apply in_app_or in Hin; destruct Hin as [Hin|Hin]);
    try (now left); try (right; left; now exists fp1).
  destruct Hin as [<-|[]]. right. now right.
Qed.

Lemma Setup_trace_tlasCalls this env fp e :
  In e (fst (tlasCalls this env fp)) ->
  In e (fst (SetupFrameGraphDependencies this env (Some fp))).
Proof.
  rewrite Setup_cases.
  destruct (snd (tlasCalls this env fp)) as [fp1| |]; cbn [fst]; [|trivial..].
  destruct (snd (skinningCalls env fp1)) as [[]| |]; cbn [fst]; intros Hin;
    apply in_or_app; now left.
Qed.

(** X9. [SetupFrameGraphDependencies] imports a buffer exactly when the
    revision changed, [CreateBuffers] left that buffer as the TLAS buffer, the
    sub-mesh count is not zero and the TLAS attachment is not registered yet;
    it imports it under the TLAS attachment identifier. An attachment that is
    registered is never imported again. *)
Theorem import_only_when_unregistered this env fp attachmentId buffer :
  In (EvImportBuffer attachmentId buffer)
     (fst (SetupFrameGraphDependencies this env (Some fp)))
  <->
  GetRevision fp <> m_rayTracingRevision this
  /\ GetTlasBuffer (CreateBuffers env (GetTlas fp) (createTlasDescriptor (GetSubMeshes fp)))
     = Some buffer
  /\ GetSubMeshCount fp <> 0
  /\ IsAttachmentValid (frameGraph env) (GetTlasAttachmentId fp) = false
  /\ attachmentId = GetTlasAttachmentId fp.
Proof.
  split.
  - intros Hin. apply Setup_trace_parts in Hin.
    destruct Hin as [Hin|[(fp1 & Hin)|Habs]]; [| |discriminate].
    2:{ apply skinningCalls_kinds in Hin. now destruct Hin as (_ & Himp & _). }
    destruct (Z.eq_dec (GetRevision fp) (m_rayTracingRevision this)) as [Hrev|Hrev].
    { rewrite tlasCalls_unchanged in Hin by assumption. destruct Hin. }
    split; [assumption|].
    rewrite tlasCalls_changed, rebuildTlas_cases in Hin by assumption.
    cbn [fst] in Hin. destruct Hin as [Habs|Hin]; [discriminate|].
    rewrite attachTlasBuffer_cases in Hin.
    destruct (GetTlasBuffer _) as [b|]; [|destruct Hin].
    destruct (GetSubMeshCount fp =? 0) eqn:Hcount; [destruct Hin|].
    apply Z.eqb_neq in Hcount.
    destruct (IsAttachmentValid _ _).
    { destruct Hin as [Habs|[]]. discriminate. }
    destruct (RHI.ResultCode_eqb _ _).
    + destruct Hin as [[= <- <-]|[Habs|[]]]; [now repeat split|discriminate].
    + destruct Hin as [[= <- <-]|[]]. now repeat split.
  - intros (Hrev & Hbuffer & Hcount & Hvalid & ->).
    apply Setup_trace_tlasCalls.
    rewrite tlasCalls_changed, rebuildTlas_cases by assumption. cbn [fst]. right.
    rewrite attachTlasBuffer_cases, Hbuffer, Hvalid.
    apply Z.eqb_neq in Hcount. rewrite Hcount.
    destruct (RHI.ResultCode_eqb _ _); now left.
Qed.

(** X10. When the revision did not change, [SetupFrameGraphDependencies]
    leaves the TLAS alone: it does not create buffers, imports nothing and
    declares no use with write access; and when there is no skinned mesh
    either, the SRG update is its only call and it returns the feature
    processor as it was. *)
Theorem unchanged_revision_keeps_tlas this env fp
  (Hrevision : GetRevision fp = m_rayTracingRevision this) :
  (forall e,
      In e (fst (SetupFrameGraphDependencies this env (Some fp))) ->
      isCreateBuffers e = false /\ isImportBuffer e = false /\ isWriteUse e = false)
  /\ (GetSkinnedMeshCount fp <= 0 ->
      SetupFrameGraphDependencies this env (Some fp)
      = ([EvUpdateRayTracingSrgs], Returned (Some fp))).
Proof.
  split.
  - intros e Hin. apply Setup_trace_parts in Hin.
    rewrite tlasCalls_unchanged in Hin by assumption.
    destruct Hin as [[]|[(fp1 & Hin)| ->]]; [|now repeat split].
    apply skinningCalls_kinds in Hin. now destruct Hin as (Hw & Hi & Hc & _).
  - intros Hnone. rewrite Setup_cases, tlasCalls_unchanged by assumption.
    cbn [fst snd]. unfold skinningCalls.
    replace (GetSkinnedMeshCount fp >? 0) with false
      by (symmetry; rewrite Z.gtb_ltb; apply Z.ltb_ge; lia).
    reflexivity.
Qed.

(** * Dependency declaration, then command emission *)

Section Frame.

Variable GetHash : Uuid -> Z.
Variable SKINNED_BLAS_REBUILD_FRAME_INTERVAL : Z.

Lemma reachesBlasLoop_changed this fp tlas :
  GetRevision fp <> m_rayTracingRevision this ->
  reachesBlasLoop this (set_Tlas tlas fp) =
  match GetTlasBuffer tlas with
  | Some _ => negb (GetSubMeshCount fp =? 0)
  | None => false
  end.
Proof.
  intros Hrev. apply Z.eqb_neq in Hrev. unfold reachesBlasLoop.
  cbn [GetTlas GetRevision GetSkinnedMeshCount GetSubMeshCount set_Tlas].
  now rewrite Hrev.
Qed.

Lemma changed_frame_write_dependency this env fp scene' :
  GetRevision fp <> m_rayTracingRevision this ->
  snd (SetupFrameGraphDependencies this env (Some fp)) = Returned scene' ->
  ((exists buffer,
       In (tlasWriteDependency fp buffer)
          (fst (SetupFrameGraphDependencies this env (Some fp))))
   <-> reachesBlasLoop this
         (set_Tlas (CreateBuffers env (GetTlas fp) (createTlasDescriptor (GetSubMeshes fp)))
                   fp) = true).
Proof.
  intros Hrev Hret. rewrite (reachesBlasLoop_changed _ _ _ Hrev).
  destruct (Setup_returned _ _ _ _ Hret) as (fp1 & _ & Htlas & _ & Htrace).
  rewrite Htrace. clear Htrace.
  rewrite tlasCalls_changed, rebuildTlas_cases in Htlas |- * by assumption.
  cbn [fst snd] in *. rewrite attachTlasBuffer_cases in Htlas |- *.
  assert (Hlater : forall buffer,
             ~ In (tlasWriteDependency fp buffer)
                  (fst (skinningCalls env fp1) ++ [EvUpdateRayTracingSrgs])).
  { intros buffer Hin. apply in_app_or in Hin. destruct Hin as [Hin|[Habs|[]]].
    - apply skinningCalls_kinds in Hin. destruct Hin as (Hw & _). discriminate.
    - discriminate. }
  destruct (GetTlasBuffer _) as [b|].
  2:{ split; [|discriminate]. intros (buffer & [Habs|Hin]); [discriminate|].
      now apply Hlater in Hin. }
  destruct (GetSubMeshCount fp =? 0).
  { split; [|discriminate]. intros (buffer & [Habs|Hin]); [discriminate|].
    now apply Hlater in Hin. }
  split; [reflexivity|]. intros _. exists b. right.
  destruct (IsAttachmentValid _ _); [now left|].
  destruct (RHI.ResultCode_eqb _ _); [right; now left|discriminate].
Qed.

(** X12. In a frame whose revision changed and whose dependency declaration
    returned, command emission on the scene that the declaration left records
    commands exactly when the declaration declared the write dependency on
    the TLAS attachment, and then its last command is the top-level build of
    the TLAS that [CreateBuffers] left; otherwise it records nothing. With a
    TLAS buffer the stored revision is the observed one after the frame. *)
Theorem tlas_build_follows_write_dependency this env fp scene'
  (Hrevision : GetRevision fp <> m_rayTracingRevision this)
  (Hreturned : snd (SetupFrameGraphDependencies this env (Some fp)) = Returned scene') :
  ((exists buffer,
       In (tlasWriteDependency fp buffer)
          (fst (SetupFrameGraphDependencies this env (Some fp)))) ->
   exists blasCommands,
     e_commands (BuildCommandList GetHash SKINNED_BLAS_REBUILD_FRAME_INTERVAL this scene')
     = blasCommands
       ++ [BuildTopLevelAccelerationStructure
             (CreateBuffers env (GetTlas fp) (createTlasDescriptor (GetSubMeshes fp)))])
  /\ (~ (exists buffer,
          In (tlasWriteDependency fp buffer)
             (fst (SetupFrameGraphDependencies this env (Some fp)))) ->
      e_commands (BuildCommandList GetHash SKINNED_BLAS_REBUILD_FRAME_INTERVAL this scene')
      = [])
  /\ (GetTlasBuffer (CreateBuffers env (GetTlas fp) (createTlasDescriptor (GetSubMeshes fp)))
      <> None ->
      m_rayTracingRevision
        (e_pass (BuildCommandList GetHash SKINNED_BLAS_REBUILD_FRAME_INTERVAL this scene'))
      = GetRevision fp).
Proof.
  pose proof (changed_frame_write_dependency _ _ _ _ Hrevision Hreturned) as Hiff.
  destruct (Setup_returned _ _ _ _ Hreturned) as (fp1 & -> & Htlas & _).
  apply tlasCalls_returned in Htlas.
  apply Z.eqb_neq in Hrevision. rewrite Hrevision in Htlas. subst fp1.
  set (tlas := CreateBuffers env (GetTlas fp) (createTlasDescriptor (GetSubMeshes fp))) in *.
  split; [|split].
  - intros Hdeclared. apply Hiff in Hdeclared.
    rewrite (BuildCommandList_reaches _ _ _ _ Hdeclared). cbn [e_commands].
    eexists. reflexivity.
  - intros Hnot.
    destruct (reachesBlasLoop this (set_Tlas tlas fp)) eqn:Hreach.
    + contradiction Hnot. now apply Hiff.
    + now destruct (BuildCommandList_returns_early GetHash
                      SKINNED_BLAS_REBUILD_FRAME_INTERVAL _ _ Hreach).
  - intros Hbuffer. unfold BuildCommandList. cbn [GetTlas set_Tlas GetRevision].
    destruct (GetTlasBuffer tlas); [|contradiction]. rewrite Hrevision. cbn [andb].
    destruct (GetSubMeshCount _ =? 0); [reflexivity|].
    now destruct (blasInstanceLoop _ _ _ _).
Qed.

End Frame.

(** * Further properties of the TLAS descriptor *)

Lemma spec_instances_from_app l1 : forall instanceIndex l2,
  exists instanceIndex',
    spec_instances_from instanceIndex (l1 ++ l2) =
    spec_instances_from instanceIndex l1 ++ spec_instances_from instanceIndex' l2.
Proof.
  induction l1 as [|subMesh l1 IH]; intros instanceIndex l2.
  - exists instanceIndex. reflexivity.
  - destruct (IH (wrap32 (instanceIndex + 1)) l2) as (instanceIndex' & Heq).
    exists instanceIndex'. cbn [app spec_instances_from]. now rewrite Heq.
Qed.

(** X13. Whatever the size of the sub-mesh vector, the TLAS descriptor has one
    instance per sub-mesh, and the instance at position [n] carries the fields
    of the [n]-th sub-mesh with the instance ID [n] reduced modulo 2^32, the
    range of the [uint32_t] counter of the loop. *)
Theorem createTlasDescriptor_instanceID_wraps subMeshes n subMesh
  (Hn : nth_error subMeshes n = Some subMesh) :
  length (m_instances (createTlasDescriptor subMeshes)) = length subMeshes
  /\ nth_error (m_instances (createTlasDescriptor subMeshes)) n =
     Some {| i_instanceID := Z.of_nat n mod 2 ^ 32;
             i_instanceMask := m_instanceMask (m_mesh subMesh);
             i_hitGroupIndex := 0;
             i_transform := m_transform (m_mesh subMesh);
             i_nonUniformScale := m_nonUniformScale (m_mesh subMesh);
             i_transparent := PrimFloat.ltb (m_irradianceColor_A subMesh) 1%float;
             i_blas := m_blas subMesh |}.
Proof.
  rewrite createTlasDescriptor_spec. split; [apply spec_instances_from_length|].
  change 0 with (wrap32 0) at 1.
  now rewrite (spec_instances_from_nth _ 0 _ _ Hn).
Qed.

(** X14. Sub-meshes added at the end of the vector leave the descriptors of
    the ones before them as they were, instance IDs included: the descriptor
    of a vector starts with the descriptor of each of its prefixes. *)
Theorem createTlasDescriptor_prefix l1 l2 :
  firstn (length l1) (m_instances (createTlasDescriptor (l1 ++ l2))) =
  m_instances (createTlasDescriptor l1).
Proof.
  rewrite !createTlasDescriptor_spec.
  destruct (spec_instances_from_app l1 0 l2) as (instanceIndex' & ->).
  rewrite <- (spec_instances_from_length l1 0) at 1.
  rewrite firstn_app, firstn_all, Nat.sub_diag, firstn_O. apply app_nil_r.
Qed.

(** * The further properties on the small scene *)

Lemma BuildCommandList_targets_witness :
  reachesBlasLoop pass featureProcessor = true
  /\ flat_map bottomLevelTarget
       (e_commands (BuildCommandList sampleHash 8 pass (Some featureProcessor)))
     = [101; 102; 103; 201; 202]
  /\ length (e_commands (BuildCommandList sampleHash 8 pass (Some featureProcessor)))
     = 6%nat.
Proof.
  split; [reflexivity|].
  exact (BuildCommandList_targets sampleHash 8 pass featureProcessor eq_refl).
Defined.

Lemma BuildCommandList_settles_witness :
  GetSkinnedMeshCount staticFeatureProcessor = 0
  /\ e_commands
       (BuildCommandList sampleHash 8
          (e_pass (BuildCommandList sampleHash 8 pass (Some staticFeatureProcessor)))
          (e_scene (BuildCommandList sampleHash 8 pass (Some staticFeatureProcessor))))
     = [].
Proof.
  split; [reflexivity|].
  now rewrite (BuildCommandList_settles sampleHash 8 pass staticFeatureProcessor eq_refl).
Defined.

Lemma update_only_for_built_skinned_witness :
  In (UpdateBottomLevelAccelerationStructure 201)
     (e_commands (BuildCommandList sampleHash 8 pass (Some featureProcessor)))
  /\ exists key inst s,
      In (key, inst) (GetBlasInstances featureProcessor)
      /\ m_blasBuilt inst = true
      /\ m_isSkinnedMesh inst = true
      /\ In s (m_subMeshes inst)
      /\ BlasInstance.m_blas s = 201.
Proof.
  assert (Hupdate : In (UpdateBottomLevelAccelerationStructure 201)
                       (e_commands (BuildCommandList sampleHash 8 pass
                                                     (Some featureProcessor))))
    by (cbn; tauto).
  split; [exact Hupdate|].
  exact (update_only_for_built_skinned sampleHash 8 pass featureProcessor 201 Hupdate).
Defined.

Lemma skinned_scene_rebuilt_every_frame_witness :
  reachesBlasLoop pass featureProcessor = true
  /\ GetSkinnedMeshCount featureProcessor <> 0
  /\ m_frameCount (fst (fst (runFrames sampleHash 8 3 pass (Some featureProcessor))))
     = frameCountAfter 3 (m_frameCount pass)
  /\ length (snd (runFrames sampleHash 8 3 pass (Some featureProcessor))) = 3%nat.
Proof.
  assert (Hskinned : GetSkinnedMeshCount featureProcessor <> 0) by (cbn; lia).
  split; [reflexivity|]. split; [exact Hskinned|].
  destruct (skinned_scene_rebuilt_every_frame sampleHash 8 3 pass featureProcessor
              eq_refl Hskinned) as (Hcount & Hlength & _).
  split; [exact Hcount|exact Hlength].
Defined.

Lemma sub_meshes_rebuilt_in_turn_witness :
  0 < 2
  /\ (2 | 2 ^ 64)
  /\ m_blasBuilt skinnedInstance = true
  /\ m_isSkinnedMesh skinnedInstance = true
  /\ (0 + Z.to_nat 2 <= length (m_subMeshes skinnedInstance))%nat
  /\ length
       (filter isBottomLevelBuild
               (firstn (Z.to_nat 2)
                       (skipn 0 (fst (blasInstanceBody sampleHash 2 5
                                                       (skinnedKey, skinnedInstance))))))
     = 1%nat.
Proof.
  assert (Hpos : 0 < 2) by lia.
  assert (Hdiv : (2 | 2 ^ 64)) by (exists (2 ^ 63); reflexivity).
  assert (Hwindow : (0 + Z.to_nat 2 <= length (m_subMeshes skinnedInstance))%nat)
    by (cbn; lia).
  split; [exact Hpos|]. split; [exact Hdiv|]. split; [reflexivity|].
  split; [reflexivity|]. split; [exact Hwindow|].
  exact (sub_meshes_rebuilt_in_turn sampleHash 2 skinnedKey skinnedInstance 5 0
           Hpos Hdiv eq_refl eq_refl Hwindow).
Defined.

Lemma blas_commands_repeat_with_interval_witness :
  0 < 8
  /\ (8 | 2 ^ 32)
  /\ fst (blasInstanceLoop sampleHash 8 (frameCountAfter (3 + Z.to_nat 8) 4294967290)
                           (GetBlasInstances featureProcessor))
     = fst (blasInstanceLoop sampleHash 8 (frameCountAfter 3 4294967290)
                             (GetBlasInstances featureProcessor)).
Proof.
  assert (Hpos : 0 < 8) by lia.
  assert (Hdiv : (8 | 2 ^ 32)) by (exists (2 ^ 29); reflexivity).
  split; [exact Hpos|]. split; [exact Hdiv|].
  exact (blas_commands_repeat_with_interval sampleHash 8 4294967290 3
           (GetBlasInstances featureProcessor) Hpos Hdiv).
Defined.

Lemma unchanged_revision_keeps_tlas_witness :
  GetRevision settledFeatureProcessor = m_rayTracingRevision pass
  /\ SetupFrameGraphDependencies pass pipeline (Some settledFeatureProcessor)
     = ([EvUpdateRayTracingSrgs], Returned (Some settledFeatureProcessor)).
Proof.
  split; [reflexivity|].
  apply (unchanged_revision_keeps_tlas pass pipeline settledFeatureProcessor eq_refl).
  cbn. lia.
Defined.

Lemma tlas_build_follows_write_dependency_witness :
  GetRevision featureProcessor <> m_rayTracingRevision pass
  /\ snd (SetupFrameGraphDependencies pass pipeline (Some featureProcessor))
     = Returned (Some (set_Tlas (createBuffers tlas (createTlasDescriptor subMeshes))
                                featureProcessor))
  /\ m_rayTracingRevision
       (e_pass (BuildCommandList sampleHash 8 pass
                  (Some (set_Tlas (createBuffers tlas (createTlasDescriptor subMeshes))
                                  featureProcessor))))
     = GetRevision featureProcessor.
Proof.
  assert (Hrevision : GetRevision featureProcessor <> m_rayTracingRevision pass)
    by (cbn; lia).
  split; [exact Hrevision|]. split; [reflexivity|].
  destruct (tlas_build_follows_write_dependency sampleHash 8 pass pipeline featureProcessor
              _ Hrevision eq_refl) as (_ & _ & Hcommitted).
  apply Hcommitted. discriminate.
Defined.

Lemma createTlasDescriptor_instanceID_wraps_witness :
  nth_error subMeshes 1 = Some {| m_mesh := mesh; m_blas := 102; m_irradianceColor_A := 0.5 |}
  /\ option_map (fun i => (i_instanceID i, i_blas i, i_transparent i))
                (nth_error (m_instances (createTlasDescriptor subMeshes)) 1)
     = Some (1, 102, true).
Proof.
  split; [reflexivity|].
  now rewrite (proj2 (createTlasDescriptor_instanceID_wraps subMeshes 1
                        {| m_mesh := mesh; m_blas := 102; m_irradianceColor_A := 0.5 |}
                        eq_refl)).
Defined.
